(** * A personal-library catalogue: shallow embedding of [main.py]

    The program keeps a list of [Book] objects in a [Library], prints its
    answers on standard output and rewrites one JSON file after every
    change.  The embedding follows the Python source function by function.

    Representation choices.
    - A Python [str] is a Rocq [string] holding its UTF-8 encoding, so the
      literals below are the literals of the source.  Equality, emptiness,
      concatenation and the substring test [in] coincide on the two views.
    - Fields carry the types of the annotations of [Book.__init__]; [year]
      is annotated [int] but [main] passes the text read by [input], so it
      is either of the two.
    - Effects (the files, standard output, [os.urandom]) are threaded
      through a state-and-exception monad over [World].
    - Functions of the Python standard library that the source calls but
      does not define ([str.lower], [json.dump], [json.load], [uuid.UUID])
      are the fields of the class [PyLib]. *)

From Stdlib Require Import ZArith NArith List Bool Ascii String Lia.
From Stdlib Require Import DecimalString DecimalFacts DecimalPos.
From stdpp Require Import base gmap strings list fin_maps.

Open Scope string_scope.
Open Scope list_scope.

(** ** Python values *)

(** What [json.load] can hand back, fractional numbers left out. *)
#[warnings="-register-all"]
Inductive json :=
| JNull
| JBool (b : bool)
| JInt (z : Z)
| JStr (s : string)
| JList (l : list json)
| JDict (d : list (string * json)).

(** The value of [year]: an [int], or the [str] typed at the prompt. *)
Inductive yearval :=
| YInt (z : Z)
| YStr (s : string).

(** The operands of the [==] of [update_status]. *)
Inductive pyobj :=
| PyStr (s : string)
| PyUUID (int : N).

Inductive exn :=
| FileNotFoundError
| JSONDecodeError
| TypeError
| ValueError.

(** [Untyped]: the call stored a value of another type than the annotated
    one in a field; Python goes on with it, the typed embedding has no
    [Book] for it and gives no answer. *)
Inductive result (A : Type) :=
| Ok (a : A)
| Raise (e : exn)
| Untyped.
Arguments Ok {A} a.
Arguments Raise {A} e.
Arguments Untyped {A}.

(** ** The standard library, as an interface *)

Class PyLib := {
  (** [s.lower()] *)
  str_lower : string -> string;
  (** the text [json.dump(obj, f, ensure_ascii=False, indent=4)] writes *)
  json_dump : json -> string;
  (** [json.load(f)] on a file holding the text; [None] is
      [json.JSONDecodeError] *)
  json_load : string -> option json;
  (** [uuid.UUID(s)], as its 128-bit integer; [None] is [ValueError] *)
  uuid_UUID : string -> option N;
  (** whether iterating the set literal of [update_status] yields its
      second element first (string hashing is seeded per process) *)
  set_iter_swapped : bool
}.

(** ** The world *)

Inductive event :=
| Print (line : string)
| Write (path text : string).

(** Opening a path for writing and writing to it are taken to succeed, and
    a file to hold the text written to it: permissions, full disks and
    bytes that are no UTF-8 are outside the model. *)
Record World := mkWorld {
  files : gmap string string;   (* the regular files, by path *)
  events : list event;          (* what was printed and written, oldest first *)
  urandom : nat -> N;           (* the 16-byte draws of os.urandom still to come *)
}.

Definition M (A : Type) : Type := World -> result A * World.

#[global] Instance M_ret : MRet M := fun A a w => (Ok a, w).

#[global] Instance M_bind : MBind M := fun A B f c w =>
  match c w with
  | (Ok a, w') => f a w'
  | (Raise e, w') => (Raise e, w')
  | (Untyped, w') => (Untyped, w')
  end.

Definition raise {A} (e : exn) : M A := fun w => (Raise e, w).

Definition untyped {A} : M A := fun w => (Untyped, w).

(** [try: c except (e1, e2, ...): h] *)
Definition try_except {A} (c : M A) (caught : exn -> bool) (h : M A) : M A :=
  fun w =>
    match c w with
    | (Raise e, w') => if caught e then h w' else (Raise e, w')
    | r => r
    end.

Definition emit (e : event) (w : World) : World :=
  {| files := files w; events := events w ++ [e]; urandom := urandom w |}.

Definition print (line : string) : M unit :=
  fun w => (Ok tt, emit (Print line) w).

(** [with open(path, "r", encoding="utf-8") as f: f.read()] *)
Definition open_read (path : string) : M string :=
  fun w =>
    match files w !! path with
    | Some text => (Ok text, w)
    | None => (Raise FileNotFoundError, w)
    end.

(** [with open(path, "w", encoding="utf-8") as f: f.write(text)] *)
Definition open_write (path text : string) : M unit :=
  fun w =>
    (Ok tt,
     {| files := <[path := text]> (files w);
        events := events w ++ [Write path text];
        urandom := urandom w |}).

(** [os.urandom(16)], read as a big-endian integer. *)
Definition os_urandom16 : M N :=
  fun w =>
    (Ok (urandom w 0 mod 2 ^ 128)%N,
     {| files := files w; events := events w;
        urandom := fun n => urandom w (S n) |}).

(** ** [str], [bool], [in], [==] *)

(** [str(n)] of an [int]. *)
Definition str_int (z : Z) : string := NilZero.string_of_int (Z.to_int z).

Definition str_year (y : yearval) : string :=
  match y with
  | YInt z => str_int z
  | YStr s => s
  end.

(** [bool(v)] *)
Definition truthy (v : json) : bool :=
  match v with
  | JNull => false
  | JBool b => b
  | JInt z => negb (Z.eqb z 0)
  | JStr s => negb (String.eqb s "")
  | JList l => match l with [] => false | _ => true end
  | JDict d => match d with [] => false | _ => true end
  end.

(** [sub in s] on two strings. *)
Fixpoint str_in (sub s : string) : bool :=
  String.prefix sub s ||
  match s with
  | EmptyString => false
  | String _ s' => str_in sub s'
  end.

(** [a == b].  [uuid.UUID.__eq__] answers [NotImplemented] unless the other
    operand is a [UUID], and so does [str.__eq__] unless it is a [str];
    when both decline, [==] compares identities, and a [str] and a [UUID]
    are never the same object. *)
Definition py_eq (a b : pyobj) : bool :=
  match a, b with
  | PyStr s, PyStr t => String.eqb s t
  | PyUUID m, PyUUID n => N.eqb m n
  | _, _ => false
  end.

(** ** [uuid.uuid4] and [str] of a [UUID] *)

(** [UUID(bytes=..., version=4)]: the variant and version bits are forced. *)
Definition uuid_set_version4 (int : N) : N :=
  let int := N.ldiff int (N.shiftl 0xc000 48) in
  let int := N.lor int (N.shiftl 0x8000 48) in
  let int := N.ldiff int (N.shiftl 0xf000 64) in
  N.lor int (N.shiftl 4 76).

Definition uuid4 : M N :=
  b ← os_urandom16; mret (uuid_set_version4 b).

Definition hex_digit (d : N) : ascii :=
  if (d <? 10)%N then ascii_of_N (48 + d) else ascii_of_N (87 + d).

(** The [n] low hexadecimal digits of [x], most significant first. *)
Fixpoint hex_digits (n : nat) (x : N) (acc : string) : string :=
  match n with
  | O => acc
  | S n' => hex_digits n' (N.shiftr x 4) (String (hex_digit (N.land x 15)) acc)
  end.

(** [str(u)]: ['%032x' % int] cut as 8-4-4-4-12. *)
Definition str_uuid (int : N) : string :=
  let hex := hex_digits 32 int "" in
  substring 0 8 hex +:+ "-" +:+ substring 8 4 hex +:+ "-" +:+
  substring 12 4 hex +:+ "-" +:+ substring 16 4 hex +:+ "-" +:+
  substring 20 12 hex.

(** ** class Book *)

Record Book := mkBook {
  id : string;
  title : string;
  author : string;
  year : yearval;
  status : string
}.

#[global] Instance yearval_eq_dec : EqDecision yearval.
Proof. solve_decision. Defined.

#[global] Instance Book_eq_dec : EqDecision Book.
Proof. solve_decision. Defined.

(** [Book.__init__(self, title, author, year, id=None, status="в наличии")];
    [None] for [id] is Python's [None].  The first line of the body is
    [self.id = id or str(uuid.uuid4())]. *)
Definition Book_init (title author : string) (year : yearval)
    (id : option string) (status : string) : M Book :=
  id ← match id with
       | Some s => if truthy (JStr s) then mret s
                   else u ← uuid4; mret (str_uuid u)
       | None => u ← uuid4; mret (str_uuid u)
       end;
  mret (mkBook id title author year status).

Definition default_status : string := "в наличии".

(** [Book.__str__] *)
Definition Book_str (self : Book) : string :=
  id self +:+ " " +:+ title self +:+ " - " +:+ author self +:+ ", " +:+
  str_year (year self) +:+ " (" +:+ status self +:+ ")".

(** [vars(book)]: the instance dictionary, in the order [__init__] fills it. *)
Definition vars (book : Book) : list (string * json) :=
  [("id", JStr (id book));
   ("title", JStr (title book));
   ("author", JStr (author book));
   ("year", match year book with YInt z => JInt z | YStr s => JStr s end);
   ("status", JStr (status book))].

(** The value bound to a keyword; [json.load] builds dictionaries, whose
    keys are distinct. *)
Fixpoint kw_get (k : string) (kw : list (string * json)) : option json :=
  match kw with
  | [] => None
  | (k', v) :: kw' => if String.eqb k k' then Some v else kw_get k kw'
  end.

Definition Book_params : list string :=
  ["title"; "author"; "year"; "id"; "status"].

(** [Book] called with [book_data] unpacked as its keyword arguments, as
    in the comprehension of [load_books].  Binding the keywords comes
    first: a non-mapping, an unknown keyword and a missing [title],
    [author] or [year] are each a [TypeError].  A falsy [id] of any type is
    replaced by the [or] of [__init__] exactly as [None] is; any other
    value of a type the annotations exclude is [Untyped]. *)
Definition Book_kwargs (book_data : json) : M Book :=
  match book_data with
  | JDict kw =>
      if negb (forallb (fun k => existsb (String.eqb k) Book_params) (map fst kw))
      then raise TypeError
      else
        match kw_get "title" kw, kw_get "author" kw, kw_get "year" kw with
        | Some t, Some a, Some y =>
            match t, a with
            | JStr t, JStr a =>
                y ← match y with
                    | JInt z => mret (YInt z)
                    | JStr s => mret (YStr s)
                    | _ => untyped
                    end;
                i ← match kw_get "id" kw with
                    | None => mret None
                    | Some (JStr s) => mret (Some s)
                    | Some v => if truthy v then untyped else mret None
                    end;
                st ← match kw_get "status" kw with
                     | None => mret default_status
                     | Some (JStr s) => mret s
                     | Some _ => untyped
                     end;
                Book_init t a y i st
            | _, _ => untyped
            end
        | _, _, _ => raise TypeError
        end
  | _ => raise TypeError
  end.

(** ** class Library *)

Record Library := mkLibrary {
  filename : string;
  books : list Book
}.

Definition set_books (self : Library) (l : list Book) : Library :=
  {| filename := filename self; books := l |}.

(** A byte that continues a UTF-8 sequence. *)
Definition is_continuation (c : ascii) : bool :=
  let n := N_of_ascii c in (128 <=? n)%N && (n <? 192)%N.

Fixpoint chars_aux (s : string) : string * list string :=
  match s with
  | EmptyString => (EmptyString, [])
  | String c s' =>
      let (p, l) := chars_aux s' in
      if is_continuation c then (String c p, l) else (EmptyString, String c p :: l)
  end.

(** The characters of a [str], each as a [str] of length one. *)
Definition str_chars (s : string) : list string :=
  let (p, l) := chars_aux s in
  match p with EmptyString => l | _ => p :: l end.

(** [for x in data]: the items the loop sees, or [TypeError] when [data]
    is not iterable.  A dictionary yields its keys, a string its
    characters. *)
Definition py_iter (data : json) : M (list json) :=
  match data with
  | JList l => mret l
  | JDict d => mret (map (fun kv => JStr (fst kv)) d)
  | JStr s => mret (map JStr (str_chars s))
  | _ => raise TypeError
  end.

Section Program.
Context {L : PyLib}.

(** [Library.save_books] *)
Definition save_books (self : Library) : M unit :=
  open_write (filename self)
    (json_dump (JList (map (fun book => JDict (vars book)) (books self)))).

(** [Library.load_books]; only [self.filename] is read. *)
Definition load_books (self_filename : string) : M (list Book) :=
  try_except
    (text ← open_read self_filename;
     data ← match json_load text with
            | Some v => mret v
            | None => raise JSONDecodeError
            end;
     items ← py_iter data;
     mapM Book_kwargs items)
    (fun e => match e with
              | FileNotFoundError | JSONDecodeError => true
              | _ => false
              end)
    (mret []).

(** [Library.__init__(self, filename="library.json")] *)
Definition Library_init (filename : string) : M Library :=
  books ← load_books filename;
  mret (mkLibrary filename books).

(** [Library.add_book] *)
Definition add_book (self : Library) (title author : string) (year : yearval)
    : M Library :=
  book ← Book_init title author year None default_status;
  let self := set_books self (books self ++ [book]) in
  save_books self;;
  print ("Книга '" +:+ title +:+ "' успешно добавлена.");;
  mret self.

(** [list.remove(x)]: drops the first item equal to [x], [ValueError] when
    there is none.  [Book] defines no [__eq__], so Python compares
    identities; the embedding compares field by field, which picks the same
    item wherever [remove_book] calls it (lemma [list_remove_first_match]). *)
Fixpoint list_remove (x : Book) (l : list Book) : option (list Book) :=
  match l with
  | [] => None
  | y :: l' =>
      if decide (x = y) then Some l'
      else match list_remove x l' with
           | Some r => Some (y :: r)
           | None => None
           end
  end.

(** The [for book in self.books] of [remove_book], from the items still to
    visit; the last line is the statement after the loop. *)
Fixpoint remove_book_loop (self : Library) (book_id : string)
    (rest : list Book) : M Library :=
  match rest with
  | book :: rest' =>
      if String.eqb (id book) book_id then
        match list_remove book (books self) with
        | Some l =>
            let self := set_books self l in
            print ("Книга с ID " +:+ book_id +:+ " успешно удалена.");;
            save_books self;;
            mret self
        | None => raise ValueError
        end
      else remove_book_loop self book_id rest'
  | [] =>
      print ("Книга с ID " +:+ book_id +:+ " не найдена.");;
      mret self
  end.

(** [Library.remove_book]; [str(book.id)] is [book.id] for a [str]. *)
Definition remove_book (self : Library) (book_id : string) : M Library :=
  remove_book_loop self book_id (books self).

(** The comprehension [found_books] of [find_book]; [or] stops at its first
    true operand. *)
Definition found_books (self : Library) (query : string) : list Book :=
  List.filter
    (fun book =>
       str_in (str_lower query) (str_lower (title book))
       || str_in (str_lower query) (str_lower (author book))
       || String.eqb query (str_year (year book)))
    (books self).

(** [for book in l: print(book)] *)
Fixpoint print_books (l : list Book) : M unit :=
  match l with
  | [] => mret tt
  | book :: l' => print (Book_str book);; print_books l'
  end.

(** [Library.find_book] *)
Definition find_book (self : Library) (query : string) : M unit :=
  let found_books := found_books self query in
  match found_books with
  | _ :: _ => print "Найденные книги:";; print_books found_books
  | [] => print "Книги по вашему запросу не найдены."
  end.

(** [Library.display_books] *)
Definition display_books (self : Library) : M unit :=
  match books self with
  | [] => print "Библиотека пуста."
  | _ :: _ => print "Список книг в библиотеке:";; print_books (books self)
  end.

Definition allowed_statuses : list string := ["в наличии"; "выдана"].

(** [', '.join(allowed_statuses)], in the order the set is iterated. *)
Definition join_allowed_statuses : string :=
  String.concat ", "
    (if set_iter_swapped then rev allowed_statuses else allowed_statuses).

Definition set_status (book : Book) (status : string) : Book :=
  {| id := id book; title := title book; author := author book;
     year := year book; status := status |}.

(** The [for book in self.books] of [update_status]: [before] are the items
    already visited, [rest] those still to visit.  [book.status = status]
    changes the object where it sits in the list. *)
Fixpoint update_status_loop (self : Library) (book_id_uuid : N)
    (status : string) (before rest : list Book) : M Library :=
  match rest with
  | book :: rest' =>
      if py_eq (PyStr (id book)) (PyUUID book_id_uuid) then
        let self := set_books self (before ++ set_status book status :: rest') in
        save_books self;;
        print ("Статус книги '" +:+ title book +:+ "' обновлён на '"
               +:+ status +:+ "'.");;
        mret self
      else update_status_loop self book_id_uuid status (before ++ [book]) rest'
  | [] =>
      print "Книга с таким ID не найдена.";;
      mret self
  end.

(** [Library.update_status] *)
Definition update_status (self : Library) (book_id status : string)
    : M Library :=
  match uuid_UUID book_id with
  | None =>
      print "Неверный формат ID книги.";;
      mret self
  | Some book_id_uuid =>
      if negb (existsb (String.eqb status) allowed_statuses) then
        print ("Недопустимый статус. Возможные варианты: "
               +:+ join_allowed_statuses +:+ ".");;
        mret self
      else update_status_loop self book_id_uuid status [] (books self)
  end.
End Program.

(** ** [main]: the menu on the terminal

    [main] reads its answers with [input] and loops until the choice is
    ["6"].  Standard input is the list of the lines still to be read;
    [input] on the empty list is [EOFError].  The prompt [input] writes is
    kept with the number of events recorded before it, which places it
    among the lines of [print].  An interrupt from the keyboard is outside
    the model. *)

(** What ends [main] other than its [break]. *)
Inductive stop :=
| EOFError                (* input() at the end of standard input *)
| Failed (e : exn)        (* an exception of the Library reaches main *)
| FailedUntyped           (* the Library gave no answer, see Untyped *)
| OutOfFuel.              (* the embedding cut the loop *)

Inductive outcome (A : Type) :=
| Done (a : A)
| Stopped (s : stop).
Arguments Done {A} a.
Arguments Stopped {A} s.

Record Terminal := mkTerminal {
  world : World;
  stdin : list string;
  prompts : list (nat * string)
}.

Definition T (A : Type) : Type := Terminal -> outcome A * Terminal.

#[global] Instance T_ret : MRet T := fun A a t => (Done a, t).

#[global] Instance T_bind : MBind T := fun A B f c t =>
  match c t with
  | (Done a, t') => f a t'
  | (Stopped s, t') => (Stopped s, t')
  end.

(** A call into the Library, on the world of the terminal. *)
Definition call {A} (c : M A) : T A :=
  fun t =>
    let (r, w) := c (world t) in
    let t' := {| world := w; stdin := stdin t; prompts := prompts t |} in
    match r with
    | Ok a => (Done a, t')
    | Raise e => (Stopped (Failed e), t')
    | Untyped => (Stopped FailedUntyped, t')
    end.

(** [input(prompt)] *)
Definition input (prompt : string) : T string :=
  fun t =>
    let shown := prompts t ++ [(length (events (world t)), prompt)] in
    match stdin t with
    | line :: rest =>
        (Done line, {| world := world t; stdin := rest; prompts := shown |})
    | [] =>
        (Stopped EOFError,
         {| world := world t; stdin := []; prompts := shown |})
    end.

Section Menu.
Context {L : PyLib}.

(** One turn of the [while True] of [main]: the Library to go on with, or
    [None] after [break]. *)
Definition menu_turn (library : Library) : T (option Library) :=
  call (print (String "010"%char "=== Меню ==="));;
  call (print "1. Добавить книгу");;
  call (print "2. Удалить книгу");;
  call (print "3. Найти книгу");;
  call (print "4. Отобразить все книги");;
  call (print "5. Обновить статус книги");;
  call (print "6. Выход");;
  choice ← input "Выберите действие: ";
  call (print (String "010"%char "============"));;
  if String.eqb choice "1" then
    title ← input "Введите название книги: ";
    author ← input "Введите автора книги: ";
    year ← input "Введите год издания книги: ";
    library ← call (add_book library title author (YStr year));
    mret (Some library)
  else if String.eqb choice "2" then
    book_id ← input "Введите ID книги для удаления: ";
    library ← call (remove_book library book_id);
    mret (Some library)
  else if String.eqb choice "3" then
    query ← input "Введите название, автора или год издания для поиска: ";
    call (find_book library query);;
    mret (Some library)
  else if String.eqb choice "4" then
    call (display_books library);;
    mret (Some library)
  else if String.eqb choice "5" then
    book_id ← input "Введите ID книги для обновления статуса: ";
    status ← input "Введите новый статус ('в наличии' или 'выдана'): ";
    library ← call (update_status library book_id status);
    mret (Some library)
  else if String.eqb choice "6" then
    call (print "Выход из программы. До свидания!");;
    mret None
  else
    call (print "Неверный ввод. Повторите попытку.");;
    mret (Some library).

(** The loop, for at most [fuel] turns. *)
Fixpoint main_loop (fuel : nat) (library : Library) : T unit :=
  match fuel with
  | O => fun t => (Stopped OutOfFuel, t)
  | S fuel =>
      next ← menu_turn library;
      match next with
      | Some library => main_loop fuel library
      | None => mret tt
      end
  end.

(** [main]; every turn reads a line, so one turn more than there are lines
    is enough, as is proved below. *)
Definition main : T unit :=
  fun t =>
    (library ← call (Library_init "library.json");
     main_loop (S (length (stdin t))) library) t.

End Menu.

(** ** A reference instance of the library interface

    A small implementation of [PyLib] for running the embedding on concrete
    inputs: lower-casing of the ASCII and Cyrillic letters, a JSON codec for
    the documents [json.dump] writes (no fractional numbers, no [\u]
    escapes above the control characters), and [uuid.UUID] on strings whose
    digits are plain hexadecimal. *)
Module Ref.

Definition between (lo n hi : N) : bool := (lo <=? n)%N && (n <=? hi)%N.

Fixpoint lower (s : string) : string :=
  match s with
  | EmptyString => EmptyString
  | String c r =>
      let n := N_of_ascii c in
      if between 65 n 90 then String (ascii_of_N (n + 32)) (lower r)
      else
        match r with
        | String d r' =>
            let m := N_of_ascii d in
            if (n =? 208)%N && between 144 m 159
            then String c (String (ascii_of_N (m + 32)) (lower r'))
            else if (n =? 208)%N && between 160 m 175
            then String (ascii_of_N 209) (String (ascii_of_N (m - 32)) (lower r'))
            else if (n =? 208)%N && between 128 m 143
            then String (ascii_of_N 209) (String (ascii_of_N (m + 16)) (lower r'))
            else String c (lower r)
        | EmptyString => String c EmptyString
        end
  end.

(** *** Writing JSON *)

Definition dquote : ascii := "034"%char.
Definition backslash : ascii := "092"%char.
Definition newline : ascii := "010"%char.

Definition escape_char (c : ascii) : string :=
  let n := N_of_ascii c in
  if (n =? 34)%N then String backslash (String dquote EmptyString)
  else if (n =? 92)%N then String backslash (String backslash EmptyString)
  else if (n =? 10)%N then String backslash "n"
  else if (n =? 13)%N then String backslash "r"
  else if (n =? 9)%N then String backslash "t"
  else if (n =? 8)%N then String backslash "b"
  else if (n =? 12)%N then String backslash "f"
  else if (n <? 32)%N then String backslash ("u" +:+ hex_digits 4 n EmptyString)
  else String c EmptyString.

Fixpoint escape (s : string) : string :=
  match s with
  | EmptyString => EmptyString
  | String c r => escape_char c +:+ escape r
  end.

Definition quote (s : string) : string :=
  String dquote (escape s +:+ String dquote EmptyString).

Fixpoint spaces (n : nat) : string :=
  match n with
  | O => EmptyString
  | S n' => String " " (spaces n')
  end.

Definition newline_indent (level : nat) : string :=
  String newline (spaces (4 * level)).

(** Lists and dictionaries put each item on a line of its own, four spaces
    deeper, and close on a line at their own depth. *)
Fixpoint dumps (level : nat) (v : json) : string :=
  match v with
  | JNull => "null"
  | JBool true => "true"
  | JBool false => "false"
  | JInt z => str_int z
  | JStr s => quote s
  | JList [] => "[]"
  | JList l =>
      "[" +:+ newline_indent (S level) +:+
      String.concat ("," +:+ newline_indent (S level))
        (map (dumps (S level)) l) +:+
      newline_indent level +:+ "]"
  | JDict [] => "{}"
  | JDict d =>
      "{" +:+ newline_indent (S level) +:+
      String.concat ("," +:+ newline_indent (S level))
        (map (fun kv => quote (fst kv) +:+ ": " +:+ dumps (S level) (snd kv)) d) +:+
      newline_indent level +:+ "}"
  end.

(** *** Reading JSON *)

Definition is_ws (c : ascii) : bool :=
  let n := N_of_ascii c in
  (n =? 32)%N || (n =? 9)%N || (n =? 10)%N || (n =? 13)%N.

Fixpoint skip_ws (s : string) : string :=
  match s with
  | String c r => if is_ws c then skip_ws r else s
  | EmptyString => s
  end.

(** The rest of [s] after the literal [lit]. *)
Fixpoint expect (lit s : string) : option string :=
  match lit, s with
  | EmptyString, _ => Some s
  | String a lit', String b s' => if Ascii.eqb a b then expect lit' s' else None
  | _, EmptyString => None
  end.

Definition hex_value (c : ascii) : option N :=
  let n := N_of_ascii c in
  if between 48 n 57 then Some (n - 48)%N
  else if between 97 n 102 then Some (n - 87)%N
  else if between 65 n 70 then Some (n - 55)%N
  else None.

(** The body of a string literal, after its opening quote. *)
Fixpoint scanstring (s : string) : option (string * string) :=
  match s with
  | EmptyString => None
  | String c r =>
      let n := N_of_ascii c in
      if (n =? 34)%N then Some (EmptyString, r)
      else if (n =? 92)%N then
        match r with
        | String e r' =>
            let put (x : N) (k : string) :=
              match scanstring k with
              | Some (t, k') => Some (String (ascii_of_N x) t, k')
              | None => None
              end in
            let m := N_of_ascii e in
            if (m =? 34)%N then put 34%N r'
            else if (m =? 92)%N then put 92%N r'
            else if (m =? 47)%N then put 47%N r'
            else if (m =? 110)%N then put 10%N r'
            else if (m =? 114)%N then put 13%N r'
            else if (m =? 116)%N then put 9%N r'
            else if (m =? 98)%N then put 8%N r'
            else if (m =? 102)%N then put 12%N r'
            else if (m =? 117)%N then
              match r' with
              | String h1 (String h2 (String h3 (String h4 r''))) =>
                  match hex_value h1, hex_value h2, hex_value h3, hex_value h4 with
                  | Some a, Some b, Some c', Some d =>
                      let x := (((a * 16 + b) * 16 + c') * 16 + d)%N in
                      if (x <? 128)%N then put x r'' else None
                  | _, _, _, _ => None
                  end
              | _ => None
              end
            else None
        | EmptyString => None
        end
      else if (n <? 32)%N then None
      else
        match scanstring r with
        | Some (t, k) => Some (String c t, k)
        | None => None
        end
  end.

Fixpoint scan_digits (s : string) (acc : Z) : Z * string :=
  match s with
  | String c r =>
      let n := N_of_ascii c in
      if between 48 n 57 then scan_digits r (acc * 10 + Z.of_N (n - 48))
      else (acc, s)
  | EmptyString => (acc, s)
  end.

Definition starts_fraction (s : string) : bool :=
  match s with
  | String c _ =>
      let n := N_of_ascii c in (n =? 46)%N || (n =? 101)%N || (n =? 69)%N
  | EmptyString => false
  end.

(** [0] or a digit string without leading zero; a fraction or an exponent
    is refused. *)
Definition scan_natural (s : string) : option (Z * string) :=
  match s with
  | String c r =>
      let n := N_of_ascii c in
      if (n =? 48)%N then
        if starts_fraction r then None else Some (0%Z, r)
      else if between 49 n 57 then
        let (z, k) := scan_digits s 0 in
        if starts_fraction k then None else Some (z, k)
      else None
  | EmptyString => None
  end.

(** A dictionary keeps one value per key, the last one read. *)
Fixpoint dict_set (k : string) (v : json) (d : list (string * json))
    : list (string * json) :=
  match d with
  | [] => [(k, v)]
  | (k', v') :: d' =>
      if String.eqb k k' then (k, v) :: d' else (k', v') :: dict_set k v d'
  end.

Fixpoint scan_value (fuel : nat) (s : string) : option (json * string) :=
  match fuel with
  | O => None
  | S fuel =>
      match skip_ws s with
      | String c r =>
          let n := N_of_ascii c in
          if (n =? 110)%N then
            match expect "ull" r with Some k => Some (JNull, k) | None => None end
          else if (n =? 116)%N then
            match expect "rue" r with Some k => Some (JBool true, k) | None => None end
          else if (n =? 102)%N then
            match expect "alse" r with Some k => Some (JBool false, k) | None => None end
          else if (n =? 34)%N then
            match scanstring r with Some (t, k) => Some (JStr t, k) | None => None end
          else if (n =? 91)%N then
            match skip_ws r with
            | String c' k =>
                if (N_of_ascii c' =? 93)%N then Some (JList [], k)
                else match scan_items fuel r with
                     | Some (l, k') => Some (JList l, k')
                     | None => None
                     end
            | EmptyString => None
            end
          else if (n =? 123)%N then
            match skip_ws r with
            | String c' k =>
                if (N_of_ascii c' =? 125)%N then Some (JDict [], k)
                else match scan_pairs fuel r [] with
                     | Some (d, k') => Some (JDict d, k')
                     | None => None
                     end
            | EmptyString => None
            end
          else if (n =? 45)%N then
            match scan_natural r with
            | Some (z, k) => Some (JInt (- z), k)
            | None => None
            end
          else
            match scan_natural (String c r) with
            | Some (z, k) => Some (JInt z, k)
            | None => None
            end
      | EmptyString => None
      end
  end
with scan_items (fuel : nat) (s : string) : option (list json * string) :=
  match fuel with
  | O => None
  | S fuel =>
      match scan_value fuel s with
      | Some (v, k) =>
          match skip_ws k with
          | String c k' =>
              if (N_of_ascii c =? 44)%N then
                match scan_items fuel k' with
                | Some (l, k'') => Some (v :: l, k'')
                | None => None
                end
              else if (N_of_ascii c =? 93)%N then Some ([v], k')
              else None
          | EmptyString => None
          end
      | None => None
      end
  end
with scan_pairs (fuel : nat) (s : string) (d : list (string * json))
    : option (list (string * json) * string) :=
  match fuel with
  | O => None
  | S fuel =>
      match skip_ws s with
      | String q r =>
          if (N_of_ascii q =? 34)%N then
            match scanstring r with
            | Some (key, k) =>
                match skip_ws k with
                | String c k' =>
                    if (N_of_ascii c =? 58)%N then
                      match scan_value fuel k' with
                      | Some (v, k'') =>
                          let d := dict_set key v d in
                          match skip_ws k'' with
                          | String c' k3 =>
                              if (N_of_ascii c' =? 44)%N then scan_pairs fuel k3 d
                              else if (N_of_ascii c' =? 125)%N then Some (d, k3)
                              else None
                          | EmptyString => None
                          end
                      | None => None
                      end
                    else None
                | EmptyString => None
                end
            | None => None
            end
          else None
      | EmptyString => None
      end
  end.

Definition loads (s : string) : option json :=
  match scan_value (S (String.length s)) s with
  | Some (v, k) => match skip_ws k with EmptyString => Some v | _ => None end
  | None => None
  end.

(** *** [uuid.UUID] on a string *)

(** [s.replace(old, '')] for a non-empty [old]. *)
Fixpoint str_remove (old : string) (skip : nat) (s : string) : string :=
  match s with
  | EmptyString => EmptyString
  | String c r =>
      match skip with
      | S k => str_remove old k r
      | O =>
          if String.prefix old s then str_remove old (String.length old - 1) r
          else String c (str_remove old 0 r)
      end
  end.

Definition is_brace (c : ascii) : bool :=
  let n := N_of_ascii c in (n =? 123)%N || (n =? 125)%N.

Fixpoint lstrip_braces (s : string) : string :=
  match s with
  | String c r => if is_brace c then lstrip_braces r else s
  | EmptyString => s
  end.

(** [s.rstrip('{}')] *)
Fixpoint rstrip_braces (s : string) : string :=
  match s with
  | EmptyString => EmptyString
  | String c r =>
      match rstrip_braces r with
      | EmptyString => if is_brace c then EmptyString else String c EmptyString
      | r' => String c r'
      end
  end.

Fixpoint hex_int (s : string) (acc : N) : option N :=
  match s with
  | EmptyString => Some acc
  | String c r =>
      match hex_value c with
      | Some d => hex_int r (acc * 16 + d)
      | None => None
      end
  end.

Definition UUID (hex : string) : option N :=
  let hex := str_remove "uuid:" 0 (str_remove "urn:" 0 hex) in
  let hex := str_remove "-" 0 (rstrip_braces (lstrip_braces hex)) in
  if negb (Nat.eqb (String.length hex) 32) then None
  else hex_int hex 0.

(** *** Vocabulary of the codec lemmas *)

(** What may follow a number: no digit, and no fraction or exponent. *)
Definition int_end (s : string) : bool :=
  match s with
  | String c _ =>
      negb (between 48 (N_of_ascii c) 57) && negb (starts_fraction s)
  | EmptyString => true
  end.

(** The values the fields of a Record are written as. *)
Definition scalar (v : json) : bool :=
  match v with JStr _ | JInt _ => true | _ => false end.

(** One line of a dictionary. *)
Definition field (level : nat) (kv : string * json) : string :=
  quote (fst kv) +:+ ": " +:+ dumps level (snd kv).

(** What separates two items at a depth. *)
Definition sep (level : nat) : string := "," +:+ newline_indent level.

#[export] Instance lib : PyLib := {|
  str_lower := lower;
  json_dump := dumps 0;
  json_load := loads;
  uuid_UUID := UUID;
  set_iter_swapped := false
|}.

(** A world with no file, nothing printed, and [os.urandom] counting up
    from [seed]. *)
Definition world (seed : N) : World :=
  {| files := ∅; events := []; urandom := fun n => (seed + N.of_nat n)%N |}.

(** The same world with one file. *)
Definition world_with (path text : string) (seed : N) : World :=
  {| files := {[ path := text ]}; events := [];
     urandom := fun n => (seed + N.of_nat n)%N |}.

(** Two Records and a Catalog holding them; the second identifier is the
    one of [test_book_creation_with_id]. *)
Definition war : Book :=
  mkBook "6fa459ea-ee8a-4ca4-894e-db77e160355e" "Война и мир" "Лев Толстой"
    (YInt 1869) "в наличии".

Definition anna : Book :=
  mkBook "1274d8e0-3b49-41eb-b3f6-1ee5fd38aae1" "Анна Каренина" "Лев Толстой"
    (YInt 1877) "в наличии".

Definition shelf : Library := mkLibrary "library.json" [war; anna].

(** A Catalog whose only Record carries the identifier that [uuid4] builds
    from sixteen zero bytes. *)
Definition zero_shelf : Library :=
  mkLibrary "library.json"
    [mkBook "00000000-0000-4000-8000-000000000000" "Идиот" "Фёдор Достоевский"
       (YInt 1869) "в наличии"].

End Ref.

(** ** Vocabulary of the statements *)

(** The world after one call of [os.urandom]. *)
Definition drawn (w : World) : World :=
  {| files := files w; events := events w;
     urandom := fun n => urandom w (S n) |}.

(** The identifier [str(uuid.uuid4())] yields in the world [w]. *)
Definition fresh_id (w : World) : string :=
  str_uuid (uuid_set_version4 (urandom w 0 mod 2 ^ 128)%N).

(** The world after [text] was written to [path]. *)
Definition wrote (path text : string) (w : World) : World :=
  {| files := <[path := text]> (files w);
     events := events w ++ [Write path text];
     urandom := urandom w |}.

(** The world after the [lines] were printed, one [print] each. *)
Definition printed (lines : list string) (w : World) : World :=
  {| files := files w;
     events := events w ++ map Print lines;
     urandom := urandom w |}.

(** The writes recorded so far. *)
Definition writes (w : World) : list event :=
  List.filter (fun e => match e with Write _ _ => true | Print _ => false end)
    (events w).

(** Nothing was written or printed between [w] and [w']. *)
Definition quiet (w w' : World) : Prop :=
  files w' = files w /\ events w' = events w.

(** The files are as in [w] and no write was recorded since. *)
Definition no_write (w w' : World) : Prop :=
  files w' = files w /\ writes w' = writes w.

(** [vars(book)] as a JSON object. *)
Definition book_json (b : Book) : json := JDict (vars b).

(** The document [save_books] hands to [json.dump]. *)
Definition store_doc (l : list Book) : json :=
  JList (map (fun book => JDict (vars book)) l).

(** A JSON value that is no list of objects: a scalar that cannot be
    iterated, a list whose first item is no object, or an object with at
    least one key (iterating it yields the key, a string). *)
Definition wrong_shape (v : json) : bool :=
  match v with
  | JNull | JBool _ | JInt _ => true
  | JList (JDict _ :: _) => false
  | JList (_ :: _) => true
  | JDict (_ :: _) => true
  | _ => false
  end.

(** A Record as the menu adds it: the default status, and the year kept
    as the text that was typed. *)
Definition as_added (b : Book) : Prop :=
  status b = "в наличии" /\ exists s, year b = YStr s.

(** What [Book.__init__] does with an [id] keyword: none given, or a value
    that the [or] replaces. *)
Definition id_replaced (kw : list (string * json)) : Prop :=
  match kw_get "id" kw with
  | None => True
  | Some v => truthy v = false
  end.

(** A triple for the programs on the terminal: from a terminal where [P]
    holds, [c] ends with a value and a terminal related by [Q], or stops
    for a reason and in a terminal related by [E]. *)
Definition triple {A : Type} (P : Terminal -> Prop) (c : T A)
    (Q : A -> Terminal -> Prop) (E : stop -> Terminal -> Prop) : Prop :=
  forall t, P t ->
    match c t with
    | (Done a, t') => Q a t'
    | (Stopped s, t') => E s t'
    end.

Section Vocabulary.
Context {L : PyLib}.

(** The store of [main] is absent, or holds the document of Records that
    are all as the menu adds them. *)
Definition shelf_store (w : World) : Prop :=
  files w !! "library.json" = None
  \/ exists l, files w !! "library.json" = Some (json_dump (store_doc l))
               /\ Forall as_added l.

(** The text [save_books] writes for the Records [l]. *)
Definition store_text (l : list Book) : string := json_dump (store_doc l).

(** The words of the specification of [Find]: [query] is a substring of
    [s] once both are lower-cased. *)
Definition contains_ci (query s : string) : Prop :=
  exists pre post, str_lower s = pre +:+ str_lower query +:+ post.

(** [query] matches the title or the author without regard to case, or is
    the rendering of the year. *)
Definition find_matches (query : string) (book : Book) : Prop :=
  contains_ci query (title book) \/ contains_ci query (author book)
  \/ query = str_year (year book).

End Vocabulary.

(** * Properties *)

Ltac run :=
  unfold mbind, mret, M_bind, M_ret, print, raise, untyped in *; cbn in *.

(** ** The monad *)

Lemma bind_run {A B : Type} (c : M A) (f : A -> M B) (w : World) :
  (c ≫= f) w
    = match c w with
      | (Ok a, w') => f a w'
      | (Raise e, w') => (Raise e, w')
      | (Untyped, w') => (Untyped, w')
      end.
Proof. reflexivity. Qed.

(** ** Strings *)

Lemma app_empty_l (s : string) : EmptyString +:+ s = s.
Proof. reflexivity. Qed.

Lemma app_cons (c : ascii) (s t : string) :
  String c s +:+ t = String c (s +:+ t).
Proof. reflexivity. Qed.

Lemma app_empty_r (s : string) : s +:+ EmptyString = s.
Proof.
  induction s as [|c s IH]; [reflexivity | now rewrite app_cons, IH].
Qed.

Lemma prefix_app (p s : string) :
  String.prefix p s = true <-> exists post, s = p +:+ post.
Proof.
  revert s. induction p as [|a p IH]; intros s.
  - split; [intros _; now exists s | now destruct s].
  - destruct s as [|b s]; cbn.
    + split; [discriminate | intros [post H]; discriminate].
    + destruct (ascii_dec a b) as [->|Hne].
      * rewrite IH. split; intros [post H]; exists post.
        -- now rewrite H.
        -- now inversion H.
      * split; [discriminate | intros [post H]; inversion H; congruence].
Qed.

(** [sub in s] holds exactly when [s] is [pre + sub + post] for some
    [pre] and [post]. *)
Lemma str_in_spec (sub s : string) :
  str_in sub s = true <-> exists pre post, s = pre +:+ sub +:+ post.
Proof.
  induction s as [|c s IH]; cbn [str_in].
  - rewrite orb_false_r, prefix_app. split.
    + intros [post H]. now exists EmptyString, post.
    + intros [pre [post H]]. destruct pre; [now exists post | discriminate].
  - rewrite orb_true_iff, prefix_app, IH. split.
    + intros [[post H] | [pre [post H]]].
      * now exists EmptyString, post.
      * exists (String c pre), post. cbn. now rewrite H.
    + intros [pre [post H]]. destruct pre as [|c' pre]; cbn in H.
      * left. now exists post.
      * right. inversion H. now exists pre, post.
Qed.

Lemma str_in_empty (s : string) : str_in EmptyString s = true.
Proof. destruct s; reflexivity. Qed.

Lemma str_in_refl (s : string) : str_in s s = true.
Proof.
  apply str_in_spec. exists EmptyString, EmptyString.
  now rewrite app_empty_l, app_empty_r.
Qed.

Lemma length_hex_digits (n : nat) (x : N) (acc : string) :
  String.length (hex_digits n x acc) = n + String.length acc.
Proof.
  revert x acc. induction n as [|n IH]; intros x acc; cbn; [reflexivity|].
  rewrite IH. cbn. lia.
Qed.

Lemma str_length_app (s t : string) :
  String.length (s +:+ t) = String.length s + String.length t.
Proof.
  induction s as [|c s IH]; [reflexivity|].
  rewrite app_cons. cbn [String.length]. now rewrite IH.
Qed.

Lemma length_substring (n m : nat) (s : string) :
  n + m <= String.length s -> String.length (substring n m s) = m.
Proof.
  revert n m. induction s as [|c s IH]; intros n m H; cbn in *.
  - destruct n, m; cbn; lia.
  - destruct n as [|n].
    + destruct m as [|m]; cbn; [reflexivity|]. rewrite IH; lia.
    + apply IH. lia.
Qed.

(** [str(uuid)] is a string of 36 characters. *)
Lemma length_str_uuid (int : N) : String.length (str_uuid int) = 36.
Proof.
  unfold str_uuid. cbv zeta.
  repeat rewrite str_length_app.
  repeat rewrite length_substring by (rewrite length_hex_digits; cbn; lia).
  reflexivity.
Qed.

Lemma str_uuid_nonempty (int : N) : str_uuid int <> EmptyString.
Proof.
  intros H. pose proof (length_str_uuid int) as Hl. rewrite H in Hl.
  discriminate.
Qed.

Lemma truthy_str (s : string) : truthy (JStr s) = true <-> s <> EmptyString.
Proof.
  cbn. destruct (String.eqb_spec s EmptyString) as [->|Hne]; cbn.
  - split; [discriminate | congruence].
  - split; [now intros _ | reflexivity].
Qed.

(** ** Book *)

Lemma Book_init_given (t a : string) (y : yearval) (s st : string) (w : World) :
  s <> EmptyString ->
  Book_init t a y (Some s) st w = (Ok (mkBook s t a y st), w).
Proof.
  intros Hs. unfold Book_init. apply truthy_str in Hs. rewrite Hs.
  reflexivity.
Qed.

Lemma Book_init_None (t a : string) (y : yearval) (st : string) (w : World) :
  Book_init t a y None st w = (Ok (mkBook (fresh_id w) t a y st), drawn w).
Proof. reflexivity. Qed.

(** Every Record [Book.__init__] returns has a non-empty identifier. *)
Lemma Book_init_id_nonempty
    (t a : string) (y : yearval) (i : option string) (st : string)
    (w w' : World) (b : Book) :
  Book_init t a y i st w = (Ok b, w') -> id b <> EmptyString.
Proof.
  destruct i as [[|c s]|]; intros H; injection H as <- _; cbn [id];
    first [apply str_uuid_nonempty | discriminate].
Qed.

(** C8, at the identifier the code does not keep: an empty string supplied
    as [id] is replaced by a generated identifier. *)
Theorem Book_init_empty_id_replaced
    (t a : string) (y : yearval) (st : string) (w : World) :
  Book_init t a y (Some EmptyString) st w
    = (Ok (mkBook (fresh_id w) t a y st), drawn w)
  /\ id (mkBook (fresh_id w) t a y st) <> EmptyString.
Proof. split; [reflexivity | apply str_uuid_nonempty]. Qed.

Section Properties.
Context {L : PyLib}.

(** ** update_status *)

Lemma update_status_loop_no_match
    (self : Library) (u : N) (st : string) (rest before : list Book) (w : World) :
  update_status_loop self u st before rest w
    = (Ok self, emit (Print "Книга с таким ID не найдена.") w).
Proof.
  revert before. induction rest as [|b rest IH]; intros before; cbn.
  - reflexivity.
  - apply IH.
Qed.

(** C1, as the code runs: once the identifier parses and the status is
    allowed, [update_status] compares each [str] identifier with a [UUID],
    finds no Record, changes nothing, writes nothing and prints "not
    found", whatever the Catalog holds. *)
Theorem update_status_never_matches
    (self : Library) (book_id status : string) (u : N) (w : World) :
  uuid_UUID book_id = Some u ->
  In status allowed_statuses ->
  update_status self book_id status w
    = (Ok self, emit (Print "Книга с таким ID не найдена.") w).
Proof.
  intros Hu Hst. unfold update_status. rewrite Hu.
  assert (existsb (String.eqb status) allowed_statuses = true) as ->.
  { apply existsb_exists. exists status. split; [exact Hst|].
    apply String.eqb_refl. }
  cbn [negb]. apply update_status_loop_no_match.
Qed.

(** C6: a malformed identifier or a status outside the allowed set makes
    [update_status] print one message and return the Catalog as it was,
    with the files untouched and no write recorded; a malformed identifier
    is reported whatever the status is. *)
Theorem update_status_rejects
    (self : Library) (book_id status : string) (w : World) :
  uuid_UUID book_id = None \/ ~ In status allowed_statuses ->
  exists msg w',
    update_status self book_id status w = (Ok self, w')
    /\ files w' = files w
    /\ events w' = (events w ++ [Print msg])%list
    /\ (uuid_UUID book_id = None -> msg = "Неверный формат ID книги.")
    /\ (uuid_UUID book_id <> None ->
        msg = "Недопустимый статус. Возможные варианты: "
              +:+ join_allowed_statuses +:+ ".").
Proof.
  intros H. unfold update_status.
  destruct (uuid_UUID book_id) as [u|] eqn:Hu.
  - destruct H as [H|H]; [discriminate|].
    assert (existsb (String.eqb status) allowed_statuses = false) as ->.
    { apply not_true_is_false. intros He. apply H.
      apply existsb_exists in He as [x [Hin Hx]].
      apply String.eqb_eq in Hx. now subst. }
    cbn [negb]. eexists _, _.
    split; [reflexivity|]. split; [reflexivity|]. split; [reflexivity|].
    split; [discriminate | reflexivity].
  - eexists _, _.
    split; [reflexivity|]. split; [reflexivity|]. split; [reflexivity|].
    split; [reflexivity | congruence].
Qed.

(** ** The world *)

Lemma printed_nil (w : World) : printed [] w = w.
Proof. destruct w. unfold printed. cbn. now rewrite app_nil_r. Qed.

Lemma printed_cons (line : string) (lines : list string) (w : World) :
  printed lines (emit (Print line) w) = printed (line :: lines) w.
Proof. unfold printed, emit. cbn. now rewrite <- app_assoc. Qed.

Lemma printed_one (line : string) (w : World) :
  emit (Print line) w = printed [line] w.
Proof. reflexivity. Qed.

Lemma save_books_run (self : Library) (w : World) :
  save_books self w
    = (Ok tt, wrote (filename self) (store_text (books self)) w).
Proof. reflexivity. Qed.

Lemma print_books_run (l : list Book) (w : World) :
  print_books l w = (Ok tt, printed (map Book_str l) w).
Proof.
  revert w. induction l as [|b l IH]; intros w; cbn [print_books map].
  - now rewrite printed_nil.
  - run. rewrite IH. now rewrite printed_cons.
Qed.

(** ** remove_book *)

(** Where [remove_book] calls it, [list.remove] takes out the very item the
    loop stands on: no earlier item has the identifier. *)
Lemma list_remove_first_match (b : Book) (l1 l2 : list Book) :
  Forall (fun x => id x <> id b) l1 ->
  list_remove b (l1 ++ b :: l2) = Some (l1 ++ l2).
Proof.
  induction 1 as [|x l1 Hx _ IH]; cbn.
  - now rewrite decide_True.
  - rewrite decide_False by congruence. now rewrite IH.
Qed.

Lemma remove_book_loop_found
    (self : Library) (book_id : string) (l1 : list Book) (b : Book)
    (l2 : list Book) (w : World) :
  Forall (fun x => id x <> book_id) l1 ->
  id b = book_id ->
  remove_book_loop self book_id (l1 ++ b :: l2) w
    = match list_remove b (books self) with
      | Some l =>
          (Ok (set_books self l),
           wrote (filename self) (store_text l)
             (emit (Print ("Книга с ID " +:+ book_id +:+ " успешно удалена.")) w))
      | None => (Raise ValueError, w)
      end.
Proof.
  intros H Hb. induction H as [|x l1 Hx _ IH]; cbn.
  - rewrite <- Hb, String.eqb_refl. now destruct (list_remove b (books self)).
  - apply String.eqb_neq in Hx. now rewrite Hx.
Qed.

Lemma remove_book_loop_absent
    (self : Library) (book_id : string) (rest : list Book) (w : World) :
  Forall (fun x => id x <> book_id) rest ->
  remove_book_loop self book_id rest w
    = (Ok self, emit (Print ("Книга с ID " +:+ book_id +:+ " не найдена.")) w).
Proof.
  induction 1 as [|x rest Hx _ IH]; cbn.
  - reflexivity.
  - apply String.eqb_neq in Hx. now rewrite Hx.
Qed.

Lemma first_match_split (book_id : string) (l : list Book) :
  Exists (fun x => id x = book_id) l ->
  exists l1 b l2,
    l = (l1 ++ b :: l2)%list /\ id b = book_id
    /\ Forall (fun x => id x <> book_id) l1.
Proof.
  induction l as [|x l IH]; intros H.
  - inversion H.
  - destruct (string_dec (id x) book_id) as [Hx|Hx].
    + now exists [], x, l.
    + inversion H as [? ? Hx'|? ? Hl]; subst; [contradiction|].
      destruct (IH Hl) as (l1 & b & l2 & -> & Hb & Hl1).
      exists (x :: l1), b, l2. repeat split; [exact Hb | now constructor].
Qed.

(** C3: when some Record has the identifier, [remove_book] takes out the
    first such Record and nothing else, keeps the others in order, prints
    the success line and writes the remaining Records to the file; the
    Catalog is one shorter.  When no Record has it, the Catalog comes back
    as it was, one "not found" line is printed and nothing is written. *)
Theorem remove_book_spec (self : Library) (book_id : string) (w : World) :
  (Exists (fun x => id x = book_id) (books self) ->
   exists l1 b l2,
     books self = (l1 ++ b :: l2)%list
     /\ id b = book_id
     /\ Forall (fun x => id x <> book_id) l1
     /\ remove_book self book_id w
        = (Ok (set_books self (l1 ++ l2)),
           wrote (filename self) (store_text (l1 ++ l2))
             (emit (Print ("Книга с ID " +:+ book_id +:+ " успешно удалена.")) w))
     /\ S (length (l1 ++ l2)) = length (books self))
  /\ (Forall (fun x => id x <> book_id) (books self) ->
      remove_book self book_id w
        = (Ok self,
           emit (Print ("Книга с ID " +:+ book_id +:+ " не найдена.")) w)).
Proof.
  split.
  - intros H. destruct (first_match_split _ _ H) as (l1 & b & l2 & Hl & Hb & Hl1).
    exists l1, b, l2. repeat split; try assumption.
    + unfold remove_book. rewrite Hl at 1.
      rewrite (remove_book_loop_found self book_id l1 b l2 w Hl1 Hb).
      rewrite Hl, list_remove_first_match; [reflexivity|].
      now rewrite Hb.
    + rewrite Hl. rewrite !List.length_app. cbn. lia.
  - apply remove_book_loop_absent.
Qed.

(** ** find_book *)

Lemma found_books_filter (self : Library) (query : string) (f : Book -> bool) :
  (forall b, f b = true <-> find_matches query b) ->
  found_books self query = List.filter f (books self).
Proof.
  intros Hf. unfold found_books. apply filter_ext. intros b.
  apply eq_true_iff_eq. rewrite Hf. unfold find_matches, contains_ci.
  rewrite !orb_true_iff, !str_in_spec, String.eqb_eq. tauto.
Qed.

Lemma In_found_books (self : Library) (query : string) (b : Book) :
  In b (found_books self query) <-> In b (books self) /\ find_matches query b.
Proof.
  unfold found_books. rewrite filter_In.
  unfold find_matches, contains_ci.
  rewrite !orb_true_iff, !str_in_spec, String.eqb_eq. tauto.
Qed.

Lemma find_book_run (self : Library) (query : string) (w : World) :
  find_book self query w
    = (Ok tt,
       printed
         match found_books self query with
         | [] => ["Книги по вашему запросу не найдены."]
         | found => "Найденные книги:" :: map Book_str found
         end w).
Proof.
  unfold find_book. destruct (found_books self query) as [|b l].
  - reflexivity.
  - unfold mbind, M_bind, print. cbn -[print_books printed].
    rewrite print_books_run. now rewrite printed_cons.
Qed.

(** C5: the Records [find_book] selects are those of the Catalog, in the
    Catalog's order, whose lower-cased title or author contains the
    lower-cased query or whose year renders as the query; it prints the
    "no matches" line when none is selected, as over an empty Catalog, and
    otherwise a heading followed by the selected Records. *)
Theorem find_book_spec (self : Library) (query : string) (w : World) :
  (forall f : Book -> bool,
      (forall b, f b = true <-> find_matches query b) ->
      found_books self query = List.filter f (books self))
  /\ (forall b, In b (found_books self query)
                <-> In b (books self) /\ find_matches query b)
  /\ (books self = [] -> found_books self query = [])
  /\ find_book self query w
     = (Ok tt,
        printed
          match found_books self query with
          | [] => ["Книги по вашему запросу не найдены."]
          | found => "Найденные книги:" :: map Book_str found
          end w).
Proof.
  split; [apply found_books_filter|].
  split; [apply In_found_books|].
  split; [|apply find_book_run].
  intros H. unfold found_books. now rewrite H.
Qed.

Lemma found_books_all (self : Library) :
  str_lower EmptyString = EmptyString ->
  found_books self EmptyString = books self.
Proof.
  intros Hl. unfold found_books. rewrite Hl.
  induction (books self) as [|b l IH]; cbn [List.filter]; [reflexivity|].
  now rewrite str_in_empty, IH.
Qed.

(** C9: with the empty query every Record is selected, so [find_book]
    shows the whole Catalog in order, and it prints the "no matches" line
    exactly when the Catalog is empty.  The one fact used about
    [str.lower] is that it maps the empty string to itself. *)
Theorem find_book_empty_query (self : Library) (w : World) :
  str_lower EmptyString = EmptyString ->
  found_books self EmptyString = books self
  /\ find_book self EmptyString w
     = (Ok tt,
        printed
          match books self with
          | [] => ["Книги по вашему запросу не найдены."]
          | l => "Найденные книги:" :: map Book_str l
          end w)
  /\ (find_book self EmptyString w
       = (Ok tt, printed ["Книги по вашему запросу не найдены."] w)
     <-> books self = []).
Proof.
  intros Hl. pose proof (found_books_all self Hl) as Hall.
  split; [exact Hall|].
  assert (find_book self EmptyString w
          = (Ok tt,
             printed
               match books self with
               | [] => ["Книги по вашему запросу не найдены."]
               | l => "Найденные книги:" :: map Book_str l
               end w)) as Hrun.
  { rewrite find_book_run. now rewrite Hall. }
  split; [exact Hrun|].
  rewrite Hrun. destruct (books self) as [|b l].
  - split; reflexivity.
  - split; [|discriminate]. intros H.
    injection H as H. apply app_inv_head in H. discriminate.
Qed.

(** ** add_book *)

Lemma add_book_run
    (self : Library) (t a : string) (y : yearval) (w : World) :
  let book := mkBook (fresh_id w) t a y default_status in
  add_book self t a y w
    = (Ok (set_books self (books self ++ [book])),
       emit (Print ("Книга '" +:+ t +:+ "' успешно добавлена."))
         (wrote (filename self) (store_text (books self ++ [book])) (drawn w))).
Proof. reflexivity. Qed.

Lemma found_books_snoc (self : Library) (query : string) (b : Book) :
  found_books (set_books self (books self ++ [b])) query
    = found_books self query ++ found_books (set_books self [b]) query.
Proof. unfold found_books. cbn [books set_books]. apply List.filter_app. Qed.

Lemma found_books_own_title (self : Library) (b : Book) :
  found_books (set_books self [b]) (title b) = [b].
Proof.
  unfold found_books. cbn [books set_books List.filter].
  now rewrite str_in_refl.
Qed.

(** C7, amended: [add_book] draws an identifier, appends the Record made
    of it, the three given fields and the default status at the end of the
    Catalog, writes the whole Catalog and prints the confirmation.  The
    identifier is not empty.  A later search for the title selects the
    Records that matched before followed by the new one, hence the new one
    alone when none matched; and the identifiers of the Catalog stay
    pairwise distinct when they were and the drawn one is not among them. *)
Theorem add_book_spec
    (self : Library) (t a : string) (y : yearval) (w : World) :
  let book := mkBook (fresh_id w) t a y "в наличии" in
  let self' := set_books self (books self ++ [book]) in
  add_book self t a y w
    = (Ok self',
       emit (Print ("Книга '" +:+ t +:+ "' успешно добавлена."))
         (wrote (filename self) (store_text (books self')) (drawn w)))
  /\ id book <> EmptyString
  /\ found_books self' t = found_books self t ++ [book]
  /\ (found_books self t = [] -> found_books self' t = [book])
  /\ (List.NoDup (map id (books self)) ->
      ~ In (id book) (map id (books self)) ->
      List.NoDup (map id (books self'))).
Proof.
  intros book self'.
  assert (found_books self' t = found_books self t ++ [book]) as Hfound.
  { unfold self'. rewrite found_books_snoc. f_equal.
    exact (found_books_own_title self book). }
  split; [apply add_book_run|].
  split; [apply str_uuid_nonempty|].
  split; [exact Hfound|].
  split.
  - intros H. now rewrite Hfound, H.
  - intros Hnd Hnin. unfold self'. cbn [books set_books].
    rewrite map_app. cbn [map].
    apply List.NoDup_app; [exact Hnd | repeat constructor; intros [] |].
    intros x Hx [<-|[]]. contradiction.
Qed.

(** ** save_books and load_books *)

Lemma Book_kwargs_vars (b : Book) (w : World) :
  id b <> EmptyString ->
  Book_kwargs (JDict (vars b)) w = (Ok b, w).
Proof.
  intros Hid. destruct b as [i t a y st]. cbn [id] in Hid.
  apply truthy_str in Hid.
  unfold Book_kwargs. cbn -[truthy Book_init].
  destruct y; run; unfold Book_init; run; now rewrite Hid.
Qed.

Lemma mapM_Book_kwargs_vars (l : list Book) (w : World) :
  Forall (fun b => id b <> EmptyString) l ->
  mapM Book_kwargs (map (fun book => JDict (vars book)) l) w = (Ok l, w).
Proof.
  induction 1 as [|b l Hb _ IH]; cbn [map mapM].
  - reflexivity.
  - rewrite bind_run, (Book_kwargs_vars b w Hb).
    now rewrite bind_run, IH.
Qed.

(** Reading a file that holds the document of the Records [l]. *)
Lemma load_books_stored (path text : string) (l : list Book) (w : World) :
  files w !! path = Some text ->
  json_load text = Some (store_doc l) ->
  Forall (fun b => id b <> EmptyString) l ->
  load_books path w = (Ok l, w).
Proof.
  intros Hf Hj Hid.
  unfold load_books, try_except, open_read, mbind, M_bind.
  rewrite Hf, Hj. cbn [mret M_ret store_doc py_iter].
  now rewrite mapM_Book_kwargs_vars.
Qed.

(** C2: for Records as [Book.__init__] makes them, whose identifier is
    never empty, and a JSON library that reads back the document it wrote,
    [save_books] followed by [load_books] on the same path yields the same
    Records: as many, in the same order, equal field by field. *)
Theorem save_load_roundtrip (self : Library) (w : World) :
  Forall (fun b => id b <> EmptyString) (books self) ->
  json_load (json_dump (store_doc (books self))) = Some (store_doc (books self)) ->
  exists w',
    save_books self w = (Ok tt, w')
    /\ load_books (filename self) w' = (Ok (books self), w').
Proof.
  intros Hid Hjson.
  exists (wrote (filename self) (store_text (books self)) w).
  split; [apply save_books_run|].
  apply load_books_stored with (text := store_text (books self)).
  - cbn [files wrote]. apply lookup_insert_eq.
  - exact Hjson.
  - exact Hid.
Qed.

(** [load_books] answers the empty list when the file is missing or is not
    JSON. *)
Lemma load_books_recovers (path : string) (w : World) :
  (files w !! path = None
   \/ exists text, files w !! path = Some text /\ json_load text = None) ->
  load_books path w = (Ok [], w).
Proof.
  intros [H | (text & H & Hj)];
    unfold load_books, try_except, open_read, mbind, M_bind; rewrite H.
  - reflexivity.
  - now rewrite Hj.
Qed.

(** C4, at a file the code does not recover from: when the file holds
    well-formed JSON that is no list of objects (a number, a list of
    numbers, an object), [load_books] lets the [TypeError] of the
    comprehension reach its caller. *)
Theorem load_books_wrong_shape_raises
    (path text : string) (data : json) (w : World) :
  files w !! path = Some text ->
  json_load text = Some data ->
  wrong_shape data = true ->
  load_books path w = (Raise TypeError, w).
Proof.
  intros H Hj Hs.
  unfold load_books, try_except, open_read, mbind, M_bind. rewrite H, Hj.
  destruct data as [| | | |l|d]; try discriminate; try reflexivity.
  - destruct l as [|x l]; [discriminate|].
    destruct x; try discriminate; reflexivity.
  - destruct d as [|kv d]; [discriminate | reflexivity].
Qed.

(** ** What writes the file *)

Lemma quiet_refl (w : World) : quiet w w.
Proof. now split. Qed.

Lemma quiet_trans (w1 w2 w3 : World) : quiet w1 w2 -> quiet w2 w3 -> quiet w1 w3.
Proof. intros [H1 H2] [H3 H4]. split; congruence. Qed.

Lemma Book_init_quiet
    (t a : string) (y : yearval) (i : option string) (st : string) (w : World) :
  quiet w (snd (Book_init t a y i st w)).
Proof. destruct i as [[|c s]|]; now split. Qed.

Lemma Book_kwargs_quiet (book_data : json) (w : World) :
  quiet w (snd (Book_kwargs book_data w)).
Proof.
  unfold Book_kwargs.
  repeat first
    [ apply quiet_refl
    | apply Book_init_quiet
    | progress cbn -[Book_init forallb kw_get truthy]
    | case_match ].
Qed.

Lemma mapM_quiet {A B : Type} (f : A -> M B) (l : list A) (w : World) :
  (forall x w, quiet w (snd (f x w))) ->
  quiet w (snd (mapM f l w)).
Proof.
  intros Hf. revert w. induction l as [|x l IH]; intros w; cbn [mapM].
  - apply quiet_refl.
  - rewrite bind_run. specialize (Hf x w).
    destruct (f x w) as [[y| |] w1]; cbn [snd] in *; try assumption.
    rewrite bind_run. specialize (IH w1).
    destruct (mapM f l w1) as [[k| |] w2]; cbn [snd] in *;
      eapply quiet_trans; eassumption.
Qed.

Lemma load_books_quiet (path : string) (w : World) :
  quiet w (snd (load_books path w)).
Proof.
  unfold load_books, try_except. rewrite bind_run. unfold open_read.
  destruct (files w !! path) as [text|]; [|apply quiet_refl].
  rewrite bind_run.
  destruct (json_load text) as [data|]; [|apply quiet_refl].
  cbn [mret M_ret]. rewrite bind_run.
  destruct data; cbn [py_iter mret M_ret raise]; try apply quiet_refl;
    match goal with
    | |- context [mapM Book_kwargs ?l w] =>
        pose proof (mapM_quiet Book_kwargs l w Book_kwargs_quiet) as H;
        destruct (mapM Book_kwargs l w) as [[k|[]|] w1]; exact H
    end.
Qed.

Lemma no_write_printed (lines : list string) (w : World) :
  no_write w (printed lines w).
Proof.
  split; [reflexivity|]. unfold writes, printed. cbn [events].
  rewrite List.filter_app.
  assert (List.filter
            (fun e => match e with Write _ _ => true | Print _ => false end)
            (map Print lines) = []) as ->.
  { induction lines as [|x lines IH]; [reflexivity | exact IH]. }
  apply app_nil_r.
Qed.

(** C10: constructing a [Library] reads the file at most: it leaves every
    file as it was and records no write (nor prints).  Neither do
    [find_book] and [display_books], a [remove_book] that finds no Record,
    and [update_status] write; so the file is written by [add_book], by a
    [remove_book] that found a Record and by the branch of [update_status]
    that found one, and by nothing else. *)
Theorem only_mutations_write
    (self : Library) (path query book_id status : string) (w : World) :
  quiet w (snd (Library_init path w))
  /\ no_write w (snd (find_book self query w))
  /\ no_write w (snd (display_books self w))
  /\ (Forall (fun x => id x <> book_id) (books self) ->
      no_write w (snd (remove_book self book_id w)))
  /\ no_write w (snd (update_status self book_id status w)).
Proof.
  split.
  { unfold Library_init. rewrite bind_run.
    pose proof (load_books_quiet path w) as H.
    destruct (load_books path w) as [[l| |] w1]; exact H. }
  split.
  { rewrite find_book_run. apply no_write_printed. }
  split.
  { unfold display_books. destruct (books self) as [|b l] eqn:Hb.
    - apply (no_write_printed [_]).
    - rewrite bind_run. unfold print at 1. rewrite print_books_run.
      cbn [snd]. rewrite printed_cons. apply no_write_printed. }
  split.
  { intros H. unfold remove_book. rewrite remove_book_loop_absent by exact H.
    apply (no_write_printed [_]). }
  unfold update_status.
  destruct (uuid_UUID book_id) as [u|]; [|apply (no_write_printed [_])].
  destruct (negb _); [apply (no_write_printed [_])|].
  rewrite update_status_loop_no_match. apply (no_write_printed [_]).
Qed.

End Properties.

(** * The reference codec reads back what it writes *)

Lemma str_app_assoc (s t u : string) : (s +:+ t) +:+ u = s +:+ (t +:+ u).
Proof.
  induction s as [|c s IH]; [reflexivity|]. rewrite !app_cons. now rewrite IH.
Qed.

Lemma scanstring_escape (s rest : string) :
  Ref.scanstring (Ref.escape s +:+ String Ref.dquote rest) = Some (s, rest).
Proof.
  induction s as [|c s IH].
  - reflexivity.
  - cbn [Ref.escape]. rewrite str_app_assoc.
    destruct c as [[] [] [] [] [] [] [] []];
      match goal with
      | |- context [Ref.escape_char ?c] =>
          let e := eval vm_compute in (Ref.escape_char c) in
          change (Ref.escape_char c) with e
      end;
      rewrite ?app_cons, ?app_empty_l; simpl; rewrite IH; reflexivity.
Qed.

Lemma skip_ws_spaces (n : nat) (s : string) :
  Ref.skip_ws (Ref.spaces n +:+ s) = Ref.skip_ws s.
Proof. induction n as [|n IH]; [reflexivity|]. exact IH. Qed.

Lemma skip_ws_newline_indent (level : nat) (s : string) :
  Ref.skip_ws (Ref.newline_indent level +:+ s) = Ref.skip_ws s.
Proof. unfold Ref.newline_indent. rewrite app_cons. apply skip_ws_spaces. Qed.

Lemma scan_digits_uint (d : Decimal.uint) (p : positive) (rest : string) :
  Ref.int_end rest = true ->
  Ref.scan_digits (NilEmpty.string_of_uint d +:+ rest) (Zpos p)
    = (Zpos (Pos.of_uint_acc d p), rest).
Proof.
  intros Hr. revert p.
  induction d as [|d IH|d IH|d IH|d IH|d IH|d IH|d IH|d IH|d IH|d IH];
    intros p; cbn [NilEmpty.string_of_uint Pos.of_uint_acc];
    rewrite ?app_cons, ?app_empty_l.
  1: { destruct rest as [|c r]; [reflexivity|]. cbn [Ref.scan_digits].
       cbn [Ref.int_end] in Hr. apply andb_prop in Hr as [Hr _].
       apply negb_true_iff in Hr. now rewrite Hr. }
  all: simpl;
    match goal with
    | |- Ref.scan_digits _ ?a = (Z.pos (Pos.of_uint_acc _ ?q), _) =>
        replace a with (Z.pos q) by lia
    end; apply IH.
Qed.

Lemma to_uint_head (p : positive) :
  match Pos.to_uint p with
  | Decimal.Nil | Decimal.D0 _ => False
  | _ => True
  end.
Proof.
  pose proof (DecimalPos.Unsigned.to_uint_nonzero p) as Hz.
  pose proof (DecimalPos.Unsigned.to_uint_nonnil p) as Hn.
  pose proof (DecimalPos.Unsigned.to_of (Pos.to_uint p)) as Hu.
  rewrite DecimalPos.Unsigned.of_to in Hu.
  change (N.to_uint (N.pos p)) with (Pos.to_uint p) in Hu.
  destruct (Pos.to_uint p) as [|d| | | | | | | | |]; try exact I.
  - now apply Hn.
  - change (Decimal.unorm (Decimal.D0 d)) with (Decimal.unorm d) in Hu.
    pose proof (DecimalFacts.nb_digits_unorm d) as Hd.
    rewrite <- Hu in Hd. cbn [Decimal.nb_digits] in Hd.
    destruct d; [now apply Hz | specialize (Hd ltac:(discriminate)); lia ..].
Qed.

Lemma scan_natural_pos (p : positive) (rest : string) :
  Ref.int_end rest = true ->
  Ref.scan_natural (NilEmpty.string_of_uint (Pos.to_uint p) +:+ rest)
    = Some (Zpos p, rest).
Proof.
  intros Hr.
  pose proof (to_uint_head p) as Hh.
  pose proof (DecimalPos.Unsigned.of_to p) as Hp.
  assert (Ref.starts_fraction rest = false) as Hf.
  { destruct rest as [|c r]; [reflexivity|]. cbn [Ref.int_end] in Hr.
    apply andb_prop in Hr as [_ Hr]. now apply negb_true_iff in Hr. }
  destruct (Pos.to_uint p) as [|d|d|d|d|d|d|d|d|d|d]; try contradiction;
    cbn [Pos.of_uint] in Hp; injection Hp as Hp;
    cbn [NilEmpty.string_of_uint]; rewrite app_cons;
    unfold Ref.scan_natural; simpl;
    match goal with
    | |- context [Ref.scan_digits _ ?a] =>
        let v := eval vm_compute in a in change a with v
    end;
    rewrite (scan_digits_uint d _ rest Hr), Hf, Hp; reflexivity.
Qed.

Lemma scan_value_ws (fuel : nat) (c : ascii) (s : string) :
  Ref.is_ws c = true ->
  Ref.scan_value fuel (String c s) = Ref.scan_value fuel s.
Proof.
  intros Hc. destruct fuel as [|fuel]; [reflexivity|].
  cbn [Ref.scan_value Ref.skip_ws]. now rewrite Hc.
Qed.

Lemma scan_value_str (fuel : nat) (s rest : string) :
  Ref.scan_value (S fuel) (Ref.quote s +:+ rest) = Some (JStr s, rest).
Proof.
  unfold Ref.quote. rewrite app_cons, str_app_assoc, app_cons, app_empty_l.
  cbn [Ref.scan_value Ref.skip_ws]. simpl (Ref.is_ws _). cbv iota.
  simpl. now rewrite scanstring_escape.
Qed.

Lemma scan_value_digit (fuel : nat) (c : ascii) (r : string) :
  Ref.between 48 (N_of_ascii c) 57 = true ->
  Ref.scan_value (S fuel) (String c r)
    = match Ref.scan_natural (String c r) with
      | Some (z, k) => Some (JInt z, k)
      | None => None
      end.
Proof.
  destruct c as [[] [] [] [] [] [] [] []]; intros H;
    first [discriminate H | reflexivity].
Qed.

Lemma scan_value_int (fuel : nat) (z : Z) (rest : string) :
  Ref.int_end rest = true ->
  Ref.scan_value (S fuel) (str_int z +:+ rest) = Some (JInt z, rest).
Proof.
  intros Hr. unfold str_int.
  destruct z as [|p|p]; cbn [Z.to_int NilZero.string_of_int].
  - assert (Ref.starts_fraction rest = false) as Hf.
    { destruct rest as [|c r]; [reflexivity|]. cbn [Ref.int_end] in Hr.
      apply andb_prop in Hr as [_ Hr]. now apply negb_true_iff in Hr. }
    change (NilZero.string_of_uint Decimal.zero) with "0".
    rewrite app_cons, app_empty_l. simpl. now rewrite Hf.
  - pose proof (scan_natural_pos p rest Hr) as Hp.
    pose proof (to_uint_head p) as Hh.
    unfold NilZero.string_of_uint.
    destruct (Pos.to_uint p) as [|d|d|d|d|d|d|d|d|d|d]; try contradiction;
      cbn [NilEmpty.string_of_uint] in *; rewrite app_cons in *;
      rewrite scan_value_digit by reflexivity; now rewrite Hp.
  - pose proof (scan_natural_pos p rest Hr) as Hp.
    pose proof (to_uint_head p) as Hh.
    rewrite app_cons.
    change (Ref.scan_value (S fuel)
              (String "-" (NilZero.string_of_uint (Pos.to_uint p) +:+ rest)))
      with (match Ref.scan_natural
                    (NilZero.string_of_uint (Pos.to_uint p) +:+ rest) with
            | Some (z, k) => Some (JInt (- z), k)
            | None => None
            end).
    unfold NilZero.string_of_uint.
    destruct (Pos.to_uint p) as [|d|d|d|d|d|d|d|d|d|d]; try contradiction;
      now rewrite Hp.
Qed.

Ltac norm :=
  repeat first [rewrite str_app_assoc | rewrite app_cons | rewrite app_empty_l].

Ltac norm_in H :=
  repeat first [rewrite str_app_assoc in H | rewrite app_cons in H
               | rewrite app_empty_l in H].

(** Decide the tests on known characters. *)
Ltac ev1 :=
  match goal with
  | |- context [Ref.is_ws ?c] =>
      let v := eval vm_compute in (Ref.is_ws c) in
      match v with
      | true => change (Ref.is_ws c) with true
      | false => change (Ref.is_ws c) with false
      end
  | |- context [N.eqb (N_of_ascii ?c) ?n] =>
      let v := eval vm_compute in (N.eqb (N_of_ascii c) n) in
      match v with
      | true => change (N.eqb (N_of_ascii c) n) with true
      | false => change (N.eqb (N_of_ascii c) n) with false
      end
  end.

Ltac ev := repeat (ev1; cbv match).

Lemma scan_value_scalar (fuel level : nat) (v : json) (rest : string) :
  Ref.scalar v = true -> Ref.int_end rest = true ->
  Ref.scan_value (S fuel) (Ref.dumps level v +:+ rest) = Some (v, rest).
Proof.
  destruct v; try discriminate; intros _ Hr; cbn [Ref.dumps].
  - now apply scan_value_int.
  - apply scan_value_str.
Qed.

Lemma concat_cons2 (s x y : string) (l : list string) :
  String.concat s (x :: y :: l) = x +:+ s +:+ String.concat s (y :: l).
Proof. reflexivity. Qed.

(** One field of a dictionary, read by the body of [scan_pairs]: the key,
    the colon and the value, up to [rest]. *)
Lemma scan_field (fuel level : nat) (kv : string * json) (rest : string)
    (A : Type) (k : string -> json -> string -> option A) :
  Ref.scalar (snd kv) = true -> Ref.int_end rest = true ->
  match Ref.skip_ws (Ref.newline_indent level +:+ Ref.field level kv +:+ rest) with
  | String q r =>
      if (N_of_ascii q =? 34)%N then
        match Ref.scanstring r with
        | Some (key, s1) =>
            match Ref.skip_ws s1 with
            | String c s2 =>
                if (N_of_ascii c =? 58)%N then
                  match Ref.scan_value (S fuel) s2 with
                  | Some (v, s3) => k key v s3
                  | None => None
                  end
                else None
            | EmptyString => None
            end
        | None => None
        end
      else None
  | EmptyString => None
  end = k (fst kv) (snd kv) rest.
Proof.
  intros Hs Hr. rewrite skip_ws_newline_indent. unfold Ref.field, Ref.quote.
  norm. cbn [Ref.skip_ws]. ev. rewrite scanstring_escape.
  cbn [Ref.skip_ws]. ev. rewrite scan_value_ws by reflexivity.
  now rewrite scan_value_scalar.
Qed.

Lemma scan_pairs_fields (level level' : nat) (rest : string)
    (d : list (string * json)) :
  Forall (fun kv => Ref.scalar (snd kv) = true) d ->
  forall (x : string * json) (acc : list (string * json)) (fuel : nat),
    Ref.scalar (snd x) = true ->
    length d + 2 <= fuel ->
    Ref.scan_pairs fuel
      (Ref.newline_indent level +:+
       String.concat (Ref.sep level) (map (Ref.field level) (x :: d)) +:+
       Ref.newline_indent level' +:+ String "}" rest) acc
    = Some (fold_left (fun a kv => Ref.dict_set (fst kv) (snd kv) a) (x :: d) acc,
            rest).
Proof.
  induction 1 as [|y d Hy Hd IH]; intros x acc fuel Hx Hf;
    (destruct fuel as [|fuel]; [cbn in Hf; lia|]); cbn [Ref.scan_pairs];
    (destruct fuel as [|fuel]; [cbn in Hf; lia|]).
  - cbn [map String.concat fold_left].
    etransitivity;
      [apply (scan_field fuel level x
                (Ref.newline_indent level' +:+ String "}" rest) _
                (fun key v s3 =>
                   match Ref.skip_ws s3 with
                   | String c' k3 =>
                       if (N_of_ascii c' =? 44)%N
                       then Ref.scan_pairs (S fuel) k3 (Ref.dict_set key v acc)
                       else if (N_of_ascii c' =? 125)%N
                            then Some (Ref.dict_set key v acc, k3)
                            else None
                   | EmptyString => None
                   end) Hx eq_refl)|].
    rewrite skip_ws_newline_indent. norm. cbn [Ref.skip_ws]. ev. reflexivity.
  - cbn [map]. rewrite concat_cons2. cbn [fold_left]. rewrite !str_app_assoc.
    etransitivity;
      [apply (scan_field fuel level x
                (Ref.sep level +:+
                 String.concat (Ref.sep level) (map (Ref.field level) (y :: d)) +:+
                 Ref.newline_indent level' +:+ String "}" rest) _
                (fun key v s3 =>
                   match Ref.skip_ws s3 with
                   | String c' k3 =>
                       if (N_of_ascii c' =? 44)%N
                       then Ref.scan_pairs (S fuel) k3 (Ref.dict_set key v acc)
                       else if (N_of_ascii c' =? 125)%N
                            then Some (Ref.dict_set key v acc, k3)
                            else None
                   | EmptyString => None
                   end) Hx eq_refl)|].
    unfold Ref.sep at 1. norm. cbn [Ref.skip_ws]. ev.
    cbn [length] in Hf. apply (IH y _ (S fuel) Hy). lia.
Qed.

Lemma dumps_book (level : nat) (b : Book) :
  Ref.dumps level (book_json b)
    = "{" +:+ Ref.newline_indent (S level) +:+
      String.concat (Ref.sep (S level)) (map (Ref.field (S level)) (vars b)) +:+
      Ref.newline_indent level +:+ "}".
Proof. reflexivity. Qed.

Lemma vars_scalar (b : Book) :
  Forall (fun kv => Ref.scalar (snd kv) = true) (vars b).
Proof. destruct b as [i t a [z|s] st]; repeat constructor. Qed.

Lemma vars_dict (b : Book) :
  fold_left (fun a kv => Ref.dict_set (fst kv) (snd kv) a) (vars b) [] = vars b.
Proof. reflexivity. Qed.

Lemma scan_value_newline_indent (fuel level : nat) (s : string) :
  Ref.scan_value fuel (Ref.newline_indent level +:+ s) = Ref.scan_value fuel s.
Proof.
  unfold Ref.newline_indent. rewrite app_cons, scan_value_ws by reflexivity.
  induction (4 * level) as [|n IH]; [reflexivity|].
  cbn [Ref.spaces]. rewrite app_cons, scan_value_ws by reflexivity. exact IH.
Qed.

Lemma scan_value_book (fuel level : nat) (b : Book) (rest : string) :
  7 <= fuel ->
  Ref.scan_value fuel (Ref.dumps level (book_json b) +:+ rest)
    = Some (book_json b, rest).
Proof.
  intros Hf. destruct fuel as [|fuel]; [lia|].
  rewrite dumps_book. norm.
  cbn [Ref.scan_value Ref.skip_ws]. ev.
  pose proof (vars_scalar b) as Hs. unfold book_json.
  destruct b as [i t a y st].
  unfold vars in *. cbn [id title author year status] in *.
  inversion Hs as [|x d Hx Hs']; subst.
  rewrite (scan_pairs_fields (S level) level rest _ Hs' _ [] fuel Hx)
    by (cbn [length]; lia).
  rewrite skip_ws_newline_indent. cbn [map]. rewrite concat_cons2.
  unfold Ref.field at 1, Ref.quote. norm. cbn [Ref.skip_ws]. ev. reflexivity.
Qed.

Lemma scan_items_books (rest : string) (l : list Book) :
  forall (x : Book) (fuel : nat),
    length l + 8 <= fuel ->
    Ref.scan_items fuel
      (Ref.newline_indent 1 +:+
       String.concat (Ref.sep 1) (map (Ref.dumps 1) (map book_json (x :: l))) +:+
       Ref.newline_indent 0 +:+ String "]" rest)
    = Some (map book_json (x :: l), rest).
Proof.
  induction l as [|y l IH]; intros x fuel Hf;
    (destruct fuel as [|fuel]; [cbn in Hf; lia|]); cbn [Ref.scan_items];
    rewrite scan_value_newline_indent; cbn [length] in Hf.
  - cbn [map String.concat].
    rewrite scan_value_book by lia.
    rewrite skip_ws_newline_indent. cbn [Ref.skip_ws]. ev. reflexivity.
  - cbn [map]. rewrite concat_cons2, !str_app_assoc.
    rewrite scan_value_book by lia.
    unfold Ref.sep at 1. norm. cbn [Ref.skip_ws]. ev.
    change (Ref.dumps 1 (book_json y) :: map (Ref.dumps 1) (map book_json l))
      with (map (Ref.dumps 1) (map book_json (y :: l))).
    rewrite (IH y fuel) by lia. reflexivity.
Qed.

Lemma length_newline_indent (level : nat) :
  String.length (Ref.newline_indent level) = S (4 * level).
Proof.
  unfold Ref.newline_indent. cbn [String.length]. f_equal.
  induction (4 * level) as [|n IH]; [reflexivity|]. cbn. now rewrite IH.
Qed.

Lemma length_concat_books (l : list Book) :
  length l <= String.length
                (String.concat (Ref.sep 1) (map (Ref.dumps 1) (map book_json l))).
Proof.
  induction l as [|x l IH]; [cbn; lia|].
  destruct l as [|y l].
  - cbn [map String.concat]. rewrite dumps_book, !str_length_app. cbn. lia.
  - cbn [map] in *. rewrite concat_cons2, !str_length_app.
    cbn [length] in *. unfold Ref.sep at 1. rewrite str_length_app. cbn [String.length].
    lia.
Qed.

(** The reference codec reads back every document [save_books] writes. *)
Lemma loads_dumps_store_doc (l : list Book) :
  Ref.loads (Ref.dumps 0 (store_doc l)) = Some (store_doc l).
Proof.
  destruct l as [|x l]; [reflexivity|].
  unfold Ref.loads.
  assert (Ref.dumps 0 (store_doc (x :: l))
          = String "["
              (Ref.newline_indent 1 +:+
               String.concat (Ref.sep 1)
                 (map (Ref.dumps 1) (map book_json (x :: l))) +:+
               Ref.newline_indent 0 +:+ String "]" EmptyString)) as ->.
  { unfold store_doc. cbn [map Ref.dumps]. now norm. }
  cbn [String.length Ref.scan_value Ref.skip_ws]. ev.
  rewrite scan_items_books.
  - rewrite skip_ws_newline_indent.
    destruct l as [|y l]; cbn [map]; [cbn [String.concat]|rewrite concat_cons2];
      rewrite dumps_book; norm; cbn [Ref.skip_ws]; ev; reflexivity.
  - rewrite !str_length_app, length_newline_indent.
    pose proof (length_concat_books (x :: l)) as H. cbn [length] in H.
    cbn [String.length]. lia.
Qed.

(** With the reference library the round trip of the store needs no
    assumption on the JSON functions. *)
Corollary reference_store_roundtrip (self : Library) (w : World) :
  Forall (fun b => id b <> EmptyString) (books self) ->
  exists w',
    save_books (L := Ref.lib) self w = (Ok tt, w')
    /\ load_books (L := Ref.lib) (filename self) w' = (Ok (books self), w').
Proof.
  intros Hid.
  exists (wrote (filename self) (store_text (L := Ref.lib) (books self)) w).
  split; [apply save_books_run|].
  apply (load_books_stored (L := Ref.lib))
    with (text := store_text (L := Ref.lib) (books self)).
  - cbn [files wrote]. apply lookup_insert_eq.
  - apply loads_dumps_store_doc.
  - exact Hid.
Qed.

(** * The theorems at concrete inputs *)

#[local] Existing Instance Ref.lib.

(** The scenario of the specification: from an empty store, two additions,
    then a search by author and a search by year. *)
Example scenario_add_add_find :
  match
    (lib ← Library_init (L := Ref.lib) "library.json";
     lib ← add_book lib "Война и мир" "Лев Толстой" (YInt 1869);
     lib ← add_book lib "Анна Каренина" "Лев Толстой" (YInt 1877);
     mret (map title (found_books lib "толстой"),
           map title (found_books lib "1877")))
      (Ref.world 0)
  with
  | (r, _) => r = Ok (["Война и мир"; "Анна Каренина"], ["Анна Каренина"])
  end.
Proof. vm_compute. reflexivity. Qed.

(** C1, failing input: the Catalog holds a Record with the very identifier
    passed, and [update_status] still reports "not found" and leaves the
    status as it was. *)
Lemma update_status_never_matches_witness :
  uuid_UUID (PyLib := Ref.lib) (id Ref.anna)
    = Some 24532809125649496139266315202762156769%N
  /\ In "выдана" (allowed_statuses)
  /\ In Ref.anna (books Ref.shelf)
  /\ update_status (L := Ref.lib) Ref.shelf (id Ref.anna) "выдана" (Ref.world 0)
     = (Ok Ref.shelf, emit (Print "Книга с таким ID не найдена.") (Ref.world 0)).
Proof.
  split; [vm_compute; reflexivity|].
  split; [right; left; reflexivity|].
  split; [right; left; reflexivity|].
  apply (update_status_never_matches (L := Ref.lib))
    with (u := 24532809125649496139266315202762156769%N).
  - vm_compute; reflexivity.
  - right; left; reflexivity.
Defined.

(** C6 at a malformed identifier together with a status outside the set:
    the identifier is the one reported. *)
Lemma update_status_rejects_witness :
  (uuid_UUID (PyLib := Ref.lib) "abc" = None
   \/ ~ In "потеряна" allowed_statuses)
  /\ exists msg w',
      update_status (L := Ref.lib) Ref.shelf "abc" "потеряна" (Ref.world 0)
        = (Ok Ref.shelf, w')
      /\ files w' = files (Ref.world 0)
      /\ events w' = events (Ref.world 0) ++ [Print msg]
      /\ (uuid_UUID (PyLib := Ref.lib) "abc" = None ->
          msg = "Неверный формат ID книги.")
      /\ (uuid_UUID (PyLib := Ref.lib) "abc" <> None ->
          msg = "Недопустимый статус. Возможные варианты: "
                +:+ join_allowed_statuses (L := Ref.lib) +:+ ".").
Proof.
  split; [left; vm_compute; reflexivity|].
  apply (update_status_rejects (L := Ref.lib)).
  left; vm_compute; reflexivity.
Defined.

(** C9 on the Catalog of two Records. *)
Lemma find_book_empty_query_witness :
  str_lower (PyLib := Ref.lib) EmptyString = EmptyString
  /\ (found_books (L := Ref.lib) Ref.shelf EmptyString = books Ref.shelf
      /\ find_book (L := Ref.lib) Ref.shelf EmptyString (Ref.world 0)
         = (Ok tt,
            printed
              match books Ref.shelf with
              | [] => ["Книги по вашему запросу не найдены."]
              | l => "Найденные книги:" :: map Book_str l
              end (Ref.world 0))
      /\ (find_book (L := Ref.lib) Ref.shelf EmptyString (Ref.world 0)
           = (Ok tt, printed ["Книги по вашему запросу не найдены."] (Ref.world 0))
         <-> books Ref.shelf = [])).
Proof.
  split; [reflexivity|].
  apply (find_book_empty_query (L := Ref.lib) Ref.shelf (Ref.world 0)).
  reflexivity.
Defined.

(** C2 on the Catalog of two Records. *)
Lemma save_load_roundtrip_witness :
  Forall (fun b => id b <> EmptyString) (books Ref.shelf)
  /\ json_load (PyLib := Ref.lib) (json_dump (store_doc (books Ref.shelf)))
     = Some (store_doc (books Ref.shelf))
  /\ exists w',
      save_books (L := Ref.lib) Ref.shelf (Ref.world 0) = (Ok tt, w')
      /\ load_books (L := Ref.lib) (filename Ref.shelf) w'
         = (Ok (books Ref.shelf), w').
Proof.
  assert (Forall (fun b => id b <> EmptyString) (books Ref.shelf)) as Hid
    by (repeat constructor; discriminate).
  assert (json_load (PyLib := Ref.lib) (json_dump (store_doc (books Ref.shelf)))
          = Some (store_doc (books Ref.shelf))) as Hjson
    by (vm_compute; reflexivity).
  split; [exact Hid|]. split; [exact Hjson|].
  exact (save_load_roundtrip (L := Ref.lib) Ref.shelf (Ref.world 0) Hid Hjson).
Defined.

(** C4, failing input: the file holds [[1]]. *)
Lemma load_books_wrong_shape_raises_witness :
  files (Ref.world_with "library.json" "[1]" 0) !! "library.json" = Some "[1]"
  /\ json_load (PyLib := Ref.lib) "[1]" = Some (JList [JInt 1])
  /\ wrong_shape (JList [JInt 1]) = true
  /\ load_books (L := Ref.lib) "library.json"
       (Ref.world_with "library.json" "[1]" 0)
     = (Raise TypeError, Ref.world_with "library.json" "[1]" 0).
Proof.
  split; [vm_compute; reflexivity|].
  split; [vm_compute; reflexivity|].
  split; [reflexivity|].
  apply (load_books_wrong_shape_raises (L := Ref.lib))
    with (text := "[1]") (data := JList [JInt 1]).
  - vm_compute; reflexivity.
  - vm_compute; reflexivity.
  - reflexivity.
Defined.

(** C7 as stated fails twice.  Adding a title the Catalog already holds
    makes the search for the title select two Records; and when
    [os.urandom] returns the bytes of an identifier already present, the
    new Record shares its identifier with an old one. *)
Lemma add_book_find_not_unique :
  match add_book (L := Ref.lib) Ref.shelf "Война и мир" "Лев Толстой"
          (YInt 1869) (Ref.world 7) with
  | (Ok self', _) =>
      map id (found_books (L := Ref.lib) self' "Война и мир")
        = ["6fa459ea-ee8a-4ca4-894e-db77e160355e";
           "00000000-0000-4000-8000-000000000007"]
  | _ => False
  end
  /\ match add_book (L := Ref.lib) Ref.zero_shelf "Бесы" "Фёдор Достоевский"
            (YInt 1872) (Ref.world 0) with
     | (Ok self', _) =>
         map id (books self')
           = ["00000000-0000-4000-8000-000000000000";
              "00000000-0000-4000-8000-000000000000"]
     | _ => False
     end.
Proof. split; vm_compute; reflexivity. Qed.

(** C8, failing input: [Book("Идиот", "Фёдор Достоевский", 1869, id="")]. *)
Example Book_init_empty_id_example :
  match Book_init "Идиот" "Фёдор Достоевский" (YInt 1869) (Some EmptyString)
          "в наличии" (Ref.world 0) with
  | (r, _) =>
      r = Ok (mkBook "00000000-0000-4000-8000-000000000000" "Идиот"
                "Фёдор Достоевский" (YInt 1869) "в наличии")
  end.
Proof. vm_compute. reflexivity. Qed.

(** * The tests of [tests.py], replayed on the embedding

    Each example runs the calls of one test in a world whose
    [os.urandom] counts up from zero and states what the test asserts. *)

(** [test_book_creation] and [test_book_str_representation] *)
Example test_book_creation :
  match Book_init "Война и мир" "Лев Толстой" (YInt 1869) None default_status
          (Ref.world 0) with
  | (Ok book, _) =>
      title book = "Война и мир" /\ author book = "Лев Толстой"
      /\ year book = YInt 1869 /\ status book = "в наличии"
      /\ id book <> EmptyString
      /\ Book_str book
         = id book +:+ " Война и мир - Лев Толстой, 1869 (в наличии)"
  | _ => False
  end.
Proof. vm_compute. repeat split; discriminate. Qed.

(** [test_book_creation_with_id] and [test_book_creation_with_status] *)
Example test_book_creation_with_id :
  fst (Book_init "Анна Каренина" "Лев Толстой" (YInt 1877)
         (Some "1274d8e0-3b49-41eb-b3f6-1ee5fd38aae1") "выдана" (Ref.world 0))
    = Ok (mkBook "1274d8e0-3b49-41eb-b3f6-1ee5fd38aae1" "Анна Каренина"
            "Лев Толстой" (YInt 1877) "выдана").
Proof. reflexivity. Qed.

(** [test_library_creation]: no file yet, an empty Catalog. *)
Example test_library_creation :
  fst (Library_init "test_library.json" (Ref.world 0))
    = Ok (mkLibrary "test_library.json" []).
Proof. reflexivity. Qed.

(** [test_add_book] *)
Example test_add_book :
  match (lib ← Library_init "test_library.json";
         add_book lib "Война и мир" "Лев Толстой" (YInt 1869)) (Ref.world 0) with
  | (Ok lib, _) => map title (books lib) = ["Война и мир"]
  | _ => False
  end.
Proof. vm_compute. reflexivity. Qed.

(** [test_remove_book]: the Record goes, and removing an identifier that
    is not there changes nothing. *)
Example test_remove_book :
  match (lib ← remove_book (mkLibrary "test_library.json" [Ref.war]) (id Ref.war);
         lib' ← remove_book lib "nonexistent_id";
         mret (books lib, books lib')) (Ref.world 0) with
  | (r, _) => r = Ok ([], [])
  end.
Proof. vm_compute. reflexivity. Qed.

(** [test_find_book]: the three searches and what they print. *)
Example test_find_book :
  match (lib ← Library_init "test_library.json";
         lib ← add_book lib "Война и мир" "Лев Толстой" (YInt 1869);
         lib ← add_book lib "Анна Каренина" "Лев Толстой" (YInt 1877);
         find_book lib "Толстой";;
         find_book lib "1877";;
         find_book lib "Преступление") (Ref.world 0) with
  | (_, w) =>
      List.filter (fun e => match e with Print _ => true | _ => false end)
        (skipn 4 (events w))
      = [Print "Найденные книги:";
         Print "00000000-0000-4000-8000-000000000000 Война и мир - Лев Толстой, 1869 (в наличии)";
         Print "00000000-0000-4000-8000-000000000001 Анна Каренина - Лев Толстой, 1877 (в наличии)";
         Print "Найденные книги:";
         Print "00000000-0000-4000-8000-000000000001 Анна Каренина - Лев Толстой, 1877 (в наличии)";
         Print "Книги по вашему запросу не найдены."]
  end.
Proof. vm_compute. reflexivity. Qed.

(** [test_display_books] *)
Example test_display_books :
  match (lib ← Library_init "test_library.json";
         lib ← add_book lib "Война и мир" "Лев Толстой" (YInt 1869);
         display_books lib) (Ref.world 0) with
  | (_, w) =>
      skipn 2 (events w)
      = [Print "Список книг в библиотеке:";
         Print "00000000-0000-4000-8000-000000000000 Война и мир - Лев Толстой, 1869 (в наличии)"]
  end.
Proof. vm_compute. reflexivity. Qed.

(** [test_save_and_load_books] *)
Example test_save_and_load_books :
  match (b1 ← Book_init "Преступление и наказание" "Фёдор Достоевский"
                 (YInt 1866) None default_status;
         b2 ← Book_init "Идиот" "Фёдор Достоевский" (YInt 1869) None
                 default_status;
         save_books (mkLibrary "test_library.json" [b1; b2]);;
         loaded ← Library_init "test_library.json";
         mret (map title (books loaded))) (Ref.world 0) with
  | (r, _) => r = Ok ["Преступление и наказание"; "Идиот"]
  end.
Proof. vm_compute. reflexivity. Qed.

(** [test_load_empty_file]: an empty file is no JSON, the Catalog is empty. *)
Example test_load_empty_file :
  fst (Library_init "test_library.json"
         (Ref.world_with "test_library.json" EmptyString 0))
    = Ok (mkLibrary "test_library.json" []).
Proof. vm_compute. reflexivity. Qed.

(** * Further properties of the Library *)

Section Further.
Context {L : PyLib}.

(** ** display_books *)

(** X1: [display_books] prints the one line "empty" for an empty Catalog,
    and otherwise a heading followed by the rendering of every Record, in
    the Catalog's order; it raises nothing. *)
Theorem display_books_spec (self : Library) (w : World) :
  display_books self w
    = (Ok tt,
       printed
         match books self with
         | [] => ["Библиотека пуста."]
         | l => "Список книг в библиотеке:" :: map Book_str l
         end w).
Proof.
  unfold display_books. destruct (books self) as [|b l].
  - reflexivity.
  - rewrite bind_run. unfold print at 1. rewrite print_books_run.
    now rewrite printed_cons.
Qed.

(** ** What load_books returns *)

Lemma Book_kwargs_id_nonempty (book_data : json) (w w' : World) (b : Book) :
  Book_kwargs book_data w = (Ok b, w') -> id b <> EmptyString.
Proof.
  unfold Book_kwargs.
  repeat first
    [ apply Book_init_id_nonempty
    | discriminate
    | progress cbn -[Book_init forallb kw_get truthy]
    | case_match ].
Qed.

Lemma mapM_Forall {A B : Type} (f : A -> M B) (P : B -> Prop) :
  (forall x w b w', f x w = (Ok b, w') -> P b) ->
  forall l w bs w', mapM f l w = (Ok bs, w') -> Forall P bs.
Proof.
  intros Hf. induction l as [|x l IH]; intros w bs w' H; cbn [mapM] in H.
  - injection H as <- _. constructor.
  - rewrite bind_run in H.
    destruct (f x w) as [[y| |] w1] eqn:Hx; try discriminate.
    rewrite bind_run in H.
    destruct (mapM f l w1) as [[k| |] w2] eqn:Hl; try discriminate.
    injection H as <- _. constructor; eauto.
Qed.

(** X2: whatever the file holds, the Records [load_books] returns all have
    a non-empty identifier: [Book.__init__] replaces a missing, null or
    empty one. *)
Theorem load_books_ids_nonempty
    (path : string) (w w' : World) (l : list Book) :
  load_books path w = (Ok l, w') ->
  Forall (fun b => id b <> EmptyString) l.
Proof.
  unfold load_books, try_except. rewrite bind_run. unfold open_read.
  destruct (files w !! path) as [text|].
  2: { intros H. injection H as <- _. constructor. }
  rewrite bind_run.
  destruct (json_load text) as [data|].
  2: { intros H. injection H as <- _. constructor. }
  cbn [mret M_ret]. rewrite bind_run.
  destruct (py_iter data w) as [[items|e|] w1] eqn:Hi.
  - destruct (mapM Book_kwargs items w1) as [[bs|e|] w2] eqn:Hm.
    + intros H. injection H as <- _.
      eapply mapM_Forall; [|exact Hm].
      intros x w0 b w0'. apply Book_kwargs_id_nonempty.
    + destruct e; intros H;
        first [discriminate H | injection H as <- _; constructor].
    + discriminate.
  - destruct e; intros H;
      first [discriminate H | injection H as <- _; constructor].
  - discriminate.
Qed.

(** X3: a stored object that has the three required fields and an [id]
    that is missing or falsy and no [status] loads as a Record with a
    freshly drawn identifier and the status "в наличии". *)
Theorem Book_kwargs_defaults
    (kw : list (string * json)) (t a : string) (y : yearval) (w : World) :
  forallb (fun k => existsb (String.eqb k) Book_params) (map fst kw) = true ->
  kw_get "title" kw = Some (JStr t) ->
  kw_get "author" kw = Some (JStr a) ->
  kw_get "year" kw = Some (match y with YInt z => JInt z | YStr s => JStr s end) ->
  id_replaced kw ->
  kw_get "status" kw = None ->
  Book_kwargs (JDict kw) w
    = (Ok (mkBook (fresh_id w) t a y "в наличии"), drawn w).
Proof.
  intros Hk Ht Ha Hy Hi Hs. unfold Book_kwargs, id_replaced in *.
  rewrite Hk, Ht, Ha, Hy, Hs. cbn [negb].
  assert (forall i : option string,
             match i with Some s => truthy (JStr s) = false | None => True end ->
             Book_init t a y i default_status w
             = (Ok (mkBook (fresh_id w) t a y "в наличии"), drawn w)) as Hinit.
  { intros [s|] Hs'; [|reflexivity]. unfold Book_init. now rewrite Hs'. }
  destruct y as [z|s'];
    (destruct (kw_get "id" kw) as [v|];
     [destruct v; try rewrite Hi; try (apply (Hinit (Some _)); exact Hi)
     |]; apply (Hinit None I)).
Qed.

Lemma Book_kwargs_bad_keys (kw : list (string * json)) (w : World) :
  (exists k, In k (map fst kw) /\ ~ In k Book_params)
  \/ kw_get "title" kw = None \/ kw_get "author" kw = None
  \/ kw_get "year" kw = None ->
  Book_kwargs (JDict kw) w = (Raise TypeError, w).
Proof.
  intros H. unfold Book_kwargs.
  destruct (forallb _ (map fst kw)) eqn:Hk; [|reflexivity]. cbn [negb].
  destruct H as [(k & Hin & Hout) | H].
  - exfalso. rewrite forallb_forall in Hk. specialize (Hk k Hin).
    apply existsb_exists in Hk as (p & Hp & Hkp).
    apply String.eqb_eq in Hkp. now subst.
  - destruct H as [-> | [H | H]].
    + reflexivity.
    + rewrite H. now destruct (kw_get "title" kw).
    + rewrite H. now destruct (kw_get "title" kw), (kw_get "author" kw).
Qed.

(** X4: when the first object of the stored list carries a key that is no
    parameter of [Book.__init__], or lacks [title], [author] or [year],
    [load_books] lets the [TypeError] of the call reach its caller. *)
Theorem load_books_bad_keys
    (path text : string) (kw : list (string * json)) (rest : list json)
    (w : World) :
  files w !! path = Some text ->
  json_load text = Some (JList (JDict kw :: rest)) ->
  ((exists k, In k (map fst kw) /\ ~ In k Book_params)
   \/ kw_get "title" kw = None \/ kw_get "author" kw = None
   \/ kw_get "year" kw = None) ->
  load_books path w = (Raise TypeError, w).
Proof.
  intros Hf Hj Hk.
  unfold load_books, try_except, open_read. rewrite bind_run, Hf, bind_run, Hj.
  repeat first [rewrite bind_run | progress cbn [mret M_ret py_iter mapM]].
  now rewrite (Book_kwargs_bad_keys kw w Hk).
Qed.

(** ** How the operations compose *)

(** Either no Record has the identifier and [remove_book] only prints, or
    the first one that has it is taken out and the rest is written. *)
Lemma remove_book_cases (self : Library) (book_id : string) (w : World) :
  (Forall (fun x => id x <> book_id) (books self)
   /\ remove_book self book_id w
      = (Ok self, emit (Print ("Книга с ID " +:+ book_id +:+ " не найдена.")) w))
  \/ (exists l1 b l2,
        books self = l1 ++ b :: l2
        /\ id b = book_id
        /\ Forall (fun x => id x <> book_id) l1
        /\ remove_book self book_id w
           = (Ok (set_books self (l1 ++ l2)),
              wrote (filename self) (store_text (l1 ++ l2))
                (emit (Print ("Книга с ID " +:+ book_id +:+ " успешно удалена.")) w))).
Proof.
  destruct (decide (Exists (fun x => id x = book_id) (books self))) as [H|H].
  - right. destruct (first_match_split _ _ H) as (l1 & b & l2 & Hl & Hb & Hl1).
    exists l1, b, l2. repeat split; try assumption.
    unfold remove_book. rewrite Hl at 1.
    rewrite (remove_book_loop_found self book_id l1 b l2 w Hl1 Hb).
    rewrite Hl, list_remove_first_match; [reflexivity | now rewrite Hb].
  - left. assert (Forall (fun x => id x <> book_id) (books self)) as HF.
    { apply Forall_forall. intros x Hx Hid. apply H.
      apply Exists_exists. now exists x. }
    split; [exact HF | now apply remove_book_loop_absent].
Qed.

Lemma set_books_same (self : Library) : set_books self (books self) = self.
Proof. now destruct self. Qed.

Lemma Library_init_stored (path text : string) (l : list Book) (w : World) :
  files w !! path = Some text ->
  json_load text = Some (store_doc l) ->
  Forall (fun b => id b <> EmptyString) l ->
  Library_init path w = (Ok (mkLibrary path l), w).
Proof.
  intros Hf Hj Hid. unfold Library_init.
  now rewrite bind_run, (load_books_stored path text l w Hf Hj Hid).
Qed.

(** X5: what [add_book] stored is what a new [Library] on the same file
    starts with: for a Catalog whose identifiers are non-empty and a JSON
    library that reads back the document written, constructing a Library
    right after the addition yields the very Catalog the addition left. *)
Theorem add_book_survives_restart
    (self : Library) (t a : string) (y : yearval) (w : World) :
  Forall (fun b => id b <> EmptyString) (books self) ->
  json_load
    (json_dump (store_doc (books self ++ [mkBook (fresh_id w) t a y "в наличии"])))
    = Some (store_doc (books self ++ [mkBook (fresh_id w) t a y "в наличии"])) ->
  exists self' w',
    add_book self t a y w = (Ok self', w')
    /\ books self' = books self ++ [mkBook (fresh_id w) t a y "в наличии"]
    /\ Library_init (filename self) w' = (Ok self', w').
Proof.
  intros Hid Hj. eexists _, _. split; [apply add_book_run|].
  split; [reflexivity|].
  eapply Library_init_stored; [| exact Hj |].
  - cbn [files emit wrote]. apply lookup_insert_eq.
  - apply Forall_app. split; [exact Hid|].
    repeat constructor. apply str_uuid_nonempty.
Qed.

(** X6: the same after a removal that found its Record: the file then
    holds the remaining Records, and a new Library on it has exactly
    them. *)
Theorem remove_book_survives_restart
    (self self' : Library) (book_id : string) (w w' : World) :
  Forall (fun b => id b <> EmptyString) (books self) ->
  Exists (fun b => id b = book_id) (books self) ->
  remove_book self book_id w = (Ok self', w') ->
  json_load (json_dump (store_doc (books self'))) = Some (store_doc (books self')) ->
  Library_init (filename self) w' = (Ok self', w').
Proof.
  intros Hid Hex Hrm Hj.
  destruct (remove_book_cases self book_id w)
    as [[HF _] | (l1 & b & l2 & Hl & Hb & Hl1 & Hrun)].
  - exfalso. apply Exists_exists in Hex as (x & Hx & Hxid).
    rewrite Forall_forall in HF. now apply (HF x Hx).
  - rewrite Hrun in Hrm. injection Hrm as <- <-. cbn [books set_books] in Hj.
    eapply Library_init_stored; [| exact Hj |].
    + cbn [files emit wrote]. apply lookup_insert_eq.
    + rewrite Hl in Hid. apply Forall_app in Hid as [H1 H2].
      apply Forall_app. split; [exact H1 | now inversion H2].
Qed.

(** X7: a Library touches no file but its own: after [add_book],
    [remove_book], [update_status] or [save_books] every other path holds
    what it held. *)
Theorem other_files_untouched
    (self : Library) (path t a book_id status : string) (y : yearval)
    (w : World) :
  path <> filename self ->
  files (snd (add_book self t a y w)) !! path = files w !! path
  /\ files (snd (remove_book self book_id w)) !! path = files w !! path
  /\ files (snd (update_status self book_id status w)) !! path = files w !! path
  /\ files (snd (save_books self w)) !! path = files w !! path.
Proof.
  intros Hp. repeat split.
  - rewrite add_book_run. cbn [snd files emit wrote].
    now apply lookup_insert_ne.
  - destruct (remove_book_cases self book_id w)
      as [[_ ->] | (l1 & b & l2 & _ & _ & _ & ->)]; cbn [snd files emit wrote].
    + reflexivity.
    + now apply lookup_insert_ne.
  - unfold update_status.
    destruct (uuid_UUID book_id) as [u|]; [|reflexivity].
    destruct (negb _); [reflexivity|].
    now rewrite update_status_loop_no_match.
  - rewrite save_books_run. cbn [snd files wrote]. now apply lookup_insert_ne.
Qed.

(** X8: removing the Record just added, by the identifier it was given,
    brings the Catalog back, and the file then holds the Catalog as it was
    before the addition; this needs the drawn identifier to be new, for
    [remove_book] takes the first Record that has it. *)
Theorem add_then_remove
    (self : Library) (t a : string) (y : yearval) (w : World) :
  Forall (fun b => id b <> fresh_id w) (books self) ->
  exists self1 w1 w2,
    add_book self t a y w = (Ok self1, w1)
    /\ remove_book self1 (fresh_id w) w1 = (Ok self, w2)
    /\ files w2 !! filename self = Some (store_text (books self)).
Proof.
  intros Hnew. eexists _, _, _. split; [apply add_book_run|].
  set (book := mkBook (fresh_id w) t a y default_status).
  set (self1 := set_books self (books self ++ [book])).
  assert (books self1 = books self ++ book :: []) as Hl by reflexivity.
  unfold remove_book. rewrite Hl at 1.
  rewrite (remove_book_loop_found self1 (fresh_id w) (books self) book [] _
             Hnew eq_refl).
  rewrite Hl, list_remove_first_match by exact Hnew.
  rewrite app_nil_r. unfold self1 at 1.
  replace (set_books (set_books self (books self ++ [book])) (books self))
    with self by now destruct self.
  split; [reflexivity|]. cbn [files emit wrote filename set_books self1].
  apply lookup_insert_eq.
Qed.

(** X9: in a Catalog whose identifiers are pairwise distinct,
    [remove_book] leaves no Record with the identifier, keeps every Record
    that has another one, keeps the identifiers distinct, and a second
    removal of the same identifier finds nothing and writes nothing. *)
Theorem remove_book_distinct_ids
    (self self' : Library) (book_id : string) (w w' : World) :
  List.NoDup (map id (books self)) ->
  remove_book self book_id w = (Ok self', w') ->
  Forall (fun b => id b <> book_id) (books self')
  /\ (forall b, In b (books self) -> id b <> book_id -> In b (books self'))
  /\ List.NoDup (map id (books self'))
  /\ remove_book self' book_id w'
     = (Ok self',
        emit (Print ("Книга с ID " +:+ book_id +:+ " не найдена.")) w').
Proof.
  intros Hnd Hrm.
  assert (Forall (fun b => id b <> book_id) (books self')
          /\ (forall b, In b (books self) -> id b <> book_id -> In b (books self'))
          /\ List.NoDup (map id (books self'))) as (H1 & H2 & H3).
  { destruct (remove_book_cases self book_id w)
      as [[HF Hrun] | (l1 & b & l2 & Hl & Hb & Hl1 & Hrun)];
      rewrite Hrun in Hrm; injection Hrm as <- _.
    - repeat split; [exact HF | tauto | exact Hnd].
    - cbn [books set_books]. rewrite Hl, map_app in Hnd. cbn [map] in Hnd.
      apply List.NoDup_remove in Hnd as [Hnd Hnin].
      rewrite <- map_app in Hnd, Hnin.
      repeat split.
      + apply Forall_forall. intros x Hx Hid. apply Hnin.
        replace (id b) with (id x) by congruence.
        apply in_map. now apply list_elem_of_In.
      + intros x Hx Hid. rewrite Hl in Hx.
        apply in_app_or in Hx as [Hx | [Hx | Hx]].
        * apply in_or_app. now left.
        * subst x. contradiction.
        * apply in_or_app. now right.
      + exact Hnd. }
  repeat split; try assumption.
  now apply remove_book_loop_absent.
Qed.

(** ** Searching and starting *)

(** X14: every Record of the Catalog is found by its own title, by its own
    author and by the rendering of its own year, each typed as it is
    stored. *)
Theorem found_by_own_fields (self : Library) (b : Book) :
  In b (books self) ->
  In b (found_books self (title b))
  /\ In b (found_books self (author b))
  /\ In b (found_books self (str_year (year b))).
Proof.
  intros Hb. unfold found_books. rewrite !filter_In.
  repeat split; try exact Hb.
  - now rewrite str_in_refl.
  - rewrite (str_in_refl (str_lower (author b))). apply orb_true_iff. left.
    apply orb_true_r.
  - rewrite String.eqb_refl. apply orb_true_r.
Qed.

(** X15: [Library.__init__] yields an empty Catalog on the given file name
    and leaves the world as it was when the file is missing, when it is
    not JSON, and also when it holds an empty list, an empty object or an
    empty string, each of which iterates to nothing. *)
Theorem Library_init_empty (path : string) (w : World) :
  (files w !! path = None
   \/ exists text,
       files w !! path = Some text
       /\ (json_load text = None
           \/ json_load text = Some (JList [])
           \/ json_load text = Some (JDict [])
           \/ json_load text = Some (JStr EmptyString))) ->
  Library_init path w = (Ok (mkLibrary path []), w).
Proof.
  intros [H | (text & H & [Hj | [Hj | [Hj | Hj]]])];
    unfold Library_init, load_books, try_except, open_read;
    rewrite !bind_run, H; try rewrite bind_run, Hj; reflexivity.
Qed.

End Further.

(** * The menu of [main] *)

(** ** Programs on the terminal *)

Lemma tbind_run {A B : Type} (c : T A) (f : A -> T B) (t : Terminal) :
  (c ≫= f) t
    = match c t with
      | (Done a, t') => f a t'
      | (Stopped s, t') => (Stopped s, t')
      end.
Proof. reflexivity. Qed.

Lemma triple_ret {A : Type} (a : A) (P : Terminal -> Prop)
    (Q : A -> Terminal -> Prop) (E : stop -> Terminal -> Prop) :
  (forall t, P t -> Q a t) -> triple P (mret a) Q E.
Proof. intros H t Ht. now apply H. Qed.

Lemma triple_bind {A B : Type} (c : T A) (f : A -> T B)
    (P : Terminal -> Prop) (Q : A -> Terminal -> Prop)
    (R : B -> Terminal -> Prop) (E : stop -> Terminal -> Prop) :
  triple P c Q E -> (forall a, triple (Q a) (f a) R E) ->
  triple P (c ≫= f) R E.
Proof.
  intros Hc Hf t Ht. rewrite tbind_run. specialize (Hc t Ht).
  destruct (c t) as [[a|s] t']; [now apply Hf | exact Hc].
Qed.

Lemma triple_pure {A : Type} (c : T A) (F : Prop) (P : Terminal -> Prop)
    (Q : A -> Terminal -> Prop) (E : stop -> Terminal -> Prop) :
  (F -> triple P c Q E) -> triple (fun t => F /\ P t) c Q E.
Proof. intros H t [HF Ht]. now apply H. Qed.

Lemma triple_call {A : Type} (c : M A) (P : Terminal -> Prop)
    (Q : A -> Terminal -> Prop) (E : stop -> Terminal -> Prop) :
  (forall t, P t ->
     match c (world t) with
     | (Ok a, w) => Q a (mkTerminal w (stdin t) (prompts t))
     | (Raise e, w) => E (Failed e) (mkTerminal w (stdin t) (prompts t))
     | (Untyped, w) => E FailedUntyped (mkTerminal w (stdin t) (prompts t))
     end) ->
  triple P (call c) Q E.
Proof.
  intros H t Ht. specialize (H t Ht). unfold call.
  destruct (c (world t)) as [[a|e|] w]; exact H.
Qed.

Lemma triple_input (prompt : string) (P : Terminal -> Prop)
    (Q : string -> Terminal -> Prop) (E : stop -> Terminal -> Prop) :
  (forall t, P t ->
     let shown := prompts t ++ [(length (events (world t)), prompt)] in
     match stdin t with
     | line :: rest => Q line (mkTerminal (world t) rest shown)
     | [] => E EOFError (mkTerminal (world t) [] shown)
     end) ->
  triple P (input prompt) Q E.
Proof.
  intros H t Ht. specialize (H t Ht). unfold input. cbv zeta in H.
  destruct (stdin t); exact H.
Qed.

Section Menu_facts.
Context {L : PyLib}.

(** What [input] and the calls do to standard input: [s0] is what was
    there at first, [pre] what has been read since. *)
Lemma call_reads {A : Type} (c : M A) (s0 pre : list string) :
  triple (fun t => s0 = pre ++ stdin t) (call c)
    (fun _ t => s0 = pre ++ stdin t) (fun s _ => s <> OutOfFuel).
Proof.
  apply triple_call. intros t Ht.
  destruct (c (world t)) as [[a|e|] w]; cbn [stdin]; first [exact Ht | discriminate].
Qed.

Lemma input_reads (prompt : string) (s0 pre : list string) :
  triple (fun t => s0 = pre ++ stdin t) (input prompt)
    (fun line t => s0 = (pre ++ [line]) ++ stdin t) (fun s _ => s <> OutOfFuel).
Proof.
  apply triple_input. intros t Ht. cbv zeta.
  destruct (stdin t) as [|line rest]; cbn [stdin]; [discriminate|].
  now rewrite <- app_assoc.
Qed.

Ltac reads_step :=
  eapply triple_bind;
  [first [apply call_reads | apply input_reads] | intros ?; cbv beta].

Lemma menu_turn_reads (library : Library) (s0 : list string) :
  triple (fun t => s0 = [] ++ stdin t) (menu_turn library)
    (fun next t =>
       (exists pre, pre <> [] /\ s0 = pre ++ stdin t)
       /\ (next = None -> In "6" s0))
    (fun s _ => s <> OutOfFuel).
Proof.
  unfold menu_turn. do 9 reads_step.
  repeat match goal with
  | |- context [String.eqb ?a ?b] => destruct (String.eqb_spec a b)
  end;
    repeat reads_step; apply triple_ret; intros t Ht;
    (split;
     [match type of Ht with
      | _ = ?p ++ stdin _ => exists p; split; [cbn; discriminate | exact Ht]
      end
     | intros Hn; try discriminate Hn]).
  subst. now left.
Qed.

Lemma main_loop_reads (fuel : nat) :
  forall (library : Library) (t : Terminal),
    length (stdin t) < fuel ->
    match main_loop fuel library t with
    | (Done _, _) => In "6" (stdin t)
    | (Stopped s, _) => s <> OutOfFuel
    end.
Proof.
  induction fuel as [|fuel IH]; intros library t Hf; [lia|].
  cbn [main_loop]. rewrite tbind_run.
  pose proof (menu_turn_reads library (stdin t) t eq_refl) as H.
  destruct (menu_turn library t) as [[[library'|]|s] t1].
  - destruct H as [(pre & Hpre & Hs) _].
    assert (length (stdin t1) < fuel) as Hlt.
    { rewrite Hs, length_app in Hf. destruct pre; [congruence|]. cbn in Hf. lia. }
    specialize (IH library' t1 Hlt).
    destruct (main_loop fuel library' t1) as [[u|s] t2]; [|exact IH].
    rewrite Hs. apply in_or_app. now right.
  - destruct H as [_ H]. now apply H.
  - exact H.
Qed.

(** X11: [main] returns only after it has read the line "6", and it never
    runs into the bound the embedding puts on the loop: on an input without
    that choice it stops with [EOFError] or with an exception of the
    Library. *)
Theorem main_halts (t : Terminal) :
  match main t with
  | (Done _, _) => In "6" (stdin t)
  | (Stopped s, _) => s <> OutOfFuel
  end.
Proof.
  unfold main. rewrite tbind_run. unfold call.
  destruct (Library_init "library.json" (world t)) as [[library|e|] w];
    try discriminate.
  apply (main_loop_reads _ library (mkTerminal w (stdin t) (prompts t))).
  cbn [stdin]. lia.
Qed.

(** ** What a turn of the menu keeps *)

Lemma call_keeps {A : Type} (c : M A) (I : World -> Prop) (R : A -> Prop) :
  (forall w, I w ->
     match c w with
     | (Ok a, w') => R a /\ I w'
     | (_, w') => I w'
     end) ->
  triple (fun t => I (world t)) (call c)
    (fun a t => R a /\ I (world t)) (fun _ t => I (world t)).
Proof.
  intros H. apply triple_call. intros t Ht. specialize (H (world t) Ht).
  destruct (c (world t)) as [[a|e|] w]; exact H.
Qed.

Lemma input_keeps (prompt : string) (I : World -> Prop) :
  triple (fun t => I (world t)) (input prompt)
    (fun _ t => I (world t)) (fun _ t => I (world t)).
Proof.
  apply triple_input. intros t Ht. cbv zeta. now destruct (stdin t).
Qed.

Lemma print_keeps (line : string) (I : World -> Prop) (s0 : list string) :
  (forall w, I w -> I (emit (Print line) w)) ->
  triple (fun t => stdin t = s0 /\ I (world t)) (call (print line))
    (fun _ t => stdin t = s0 /\ I (world t)) (fun _ t => I (world t)).
Proof.
  intros H. apply triple_call. intros t [Hs Ht]. cbn. split; [exact Hs|].
  now apply H.
Qed.

Lemma input_first (prompt : string) (I : World -> Prop) (s0 : list string) :
  triple (fun t => stdin t = s0 /\ I (world t)) (input prompt)
    (fun line t => hd_error s0 = Some line /\ I (world t))
    (fun _ t => I (world t)).
Proof.
  apply triple_input. intros t [Hs Ht]. cbv zeta. rewrite Hs.
  destruct s0; cbn; [exact Ht | now split].
Qed.

Lemma no_write_trans (w1 w2 w3 : World) :
  no_write w1 w2 -> no_write w2 w3 -> no_write w1 w3.
Proof. intros [H1 H2] [H3 H4]. split; congruence. Qed.

Lemma no_write_emit (w0 w : World) (line : string) :
  no_write w0 w -> no_write w0 (emit (Print line) w).
Proof.
  intros H. eapply no_write_trans; [exact H|]. apply (no_write_printed [line]).
Qed.

Lemma update_status_noop (self : Library) (book_id status : string) (w : World) :
  exists msg, update_status self book_id status w = (Ok self, emit (Print msg) w).
Proof.
  unfold update_status.
  destruct (uuid_UUID book_id) as [u|]; [|now eexists].
  destruct (negb _); [now eexists|].
  rewrite update_status_loop_no_match. now eexists.
Qed.

Lemma display_books_files (self : Library) (w : World) :
  exists lines, display_books self w = (Ok tt, printed lines w).
Proof.
  unfold display_books. destruct (books self) as [|b l].
  - now exists ["Библиотека пуста."].
  - rewrite bind_run. unfold print at 1. rewrite print_books_run.
    rewrite printed_cons. now eexists.
Qed.

Ltac first_step :=
  eapply triple_bind;
  [first [apply print_keeps; intros; now apply no_write_emit | apply input_first]
  | intros ?; cbv beta].

Ltac keep_with tac :=
  eapply triple_bind;
  [tac | intros ?; cbv beta; try (apply triple_pure; intros ?)].

Ltac keep_print :=
  keep_with ltac:(apply (call_keeps _ _ (fun _ => True)); intros w Hw;
                  split; [exact I | now apply no_write_emit]).

Ltac keep_input := keep_with ltac:(apply input_keeps).

Ltac keep_done :=
  apply triple_ret; intros t' Ht'; split; [congruence | exact Ht'].

(** X12: a turn whose choice is neither "1" nor "2" hands back the Library
    it was given and records no write. *)
Theorem menu_turn_read_only (library : Library) (t : Terminal) :
  hd_error (stdin t) <> Some "1" ->
  hd_error (stdin t) <> Some "2" ->
  match menu_turn library t with
  | (r, t') =>
      no_write (world t) (world t')
      /\ (forall library', r = Done (Some library') -> library' = library)
  end.
Proof.
  intros H1 H2.
  assert (triple (fun t' => stdin t' = stdin t /\ no_write (world t) (world t'))
            (menu_turn library)
            (fun next t' =>
               (forall library', next = Some library' -> library' = library)
               /\ no_write (world t) (world t'))
            (fun _ t' => no_write (world t) (world t'))) as H.
  { unfold menu_turn.
    do 8 first_step.
    apply triple_pure. intros Hc.
    keep_print.
    repeat match goal with
    | |- context [String.eqb ?a ?b] => destruct (String.eqb_spec a b)
    end; try (subst; congruence).
    - keep_input.
      keep_with ltac:(apply (call_keeps _ _ (fun _ => True)); intros w Hw;
                      rewrite find_book_run; split; [exact I|];
                      eapply no_write_trans; [exact Hw | apply no_write_printed]).
      keep_done.
    - keep_with ltac:(apply (call_keeps _ _ (fun _ => True)); intros w Hw;
                      destruct (display_books_files library w) as [lines ->];
                      split; [exact I|];
                      eapply no_write_trans; [exact Hw | apply no_write_printed]).
      keep_done.
    - keep_input. keep_input.
      keep_with ltac:(apply (call_keeps _ _ (fun l => l = library)); intros w Hw;
                      match goal with
                      | |- context [update_status ?l ?i ?s w] =>
                          destruct (update_status_noop l i s w) as [msg ->]
                      end;
                      split; [reflexivity | now apply no_write_emit]).
      keep_done.
    - keep_print. keep_done.
    - keep_print. keep_done. }
  specialize (H t (conj eq_refl (conj eq_refl eq_refl))).
  destruct (menu_turn library t) as [[next|s] t'].
  - destruct H as [Hl Hw]. split; [exact Hw|]. intros l' Hl'.
    injection Hl' as ->. now apply Hl.
  - split; [exact H | discriminate].
Qed.

(** ** The statuses in the store of [main] *)

Lemma shelf_store_files (w w' : World) :
  files w' = files w -> shelf_store w -> shelf_store w'.
Proof. unfold shelf_store. intros ->. tauto. Qed.

Lemma add_book_shelf (self : Library) (t a y : string) (w : World) :
  filename self = "library.json" ->
  Forall as_added (books self) ->
  match add_book self t a (YStr y) w with
  | (Ok self', w') =>
      (filename self' = "library.json" /\ Forall as_added (books self'))
      /\ shelf_store w'
  | (_, w') => shelf_store w'
  end.
Proof.
  intros Hf Hs. rewrite add_book_run.
  assert (Forall as_added
            (books self ++ [mkBook (fresh_id w) t a (YStr y) default_status]))
    as Hs'.
  { apply Forall_app. split; [exact Hs|]. repeat constructor. now exists y. }
  split; [split; [exact Hf | exact Hs']|].
  right. eexists. split; [|exact Hs'].
  cbn [files emit wrote]. rewrite Hf. apply lookup_insert_eq.
Qed.

Lemma remove_book_shelf (self : Library) (book_id : string) (w : World) :
  filename self = "library.json" ->
  Forall as_added (books self) ->
  shelf_store w ->
  match remove_book self book_id w with
  | (Ok self', w') =>
      (filename self' = "library.json" /\ Forall as_added (books self'))
      /\ shelf_store w'
  | (_, w') => shelf_store w'
  end.
Proof.
  intros Hf Hs Hw.
  destruct (remove_book_cases self book_id w)
    as [[_ ->] | (l1 & b & l2 & Hl & _ & _ & ->)].
  - split; [now split|]. now apply (shelf_store_files w).
  - assert (Forall as_added (l1 ++ l2)) as Hs'.
    { rewrite Hl in Hs. apply Forall_app in Hs as [Ha Hb].
      apply Forall_app. split; [exact Ha | now inversion Hb]. }
    split; [split; [exact Hf | exact Hs']|].
    right. eexists. split; [|exact Hs'].
    cbn [files emit wrote]. rewrite Hf. apply lookup_insert_eq.
Qed.

Ltac shelf_with tac :=
  eapply triple_bind;
  [tac | intros ?; cbv beta; try (apply triple_pure; intros ?)].

Ltac shelf_print :=
  shelf_with ltac:(apply (call_keeps _ _ (fun _ => True)); intros w Hw;
                   split; [exact I | now apply (shelf_store_files w)]).

Ltac shelf_input := shelf_with ltac:(apply input_keeps).

Lemma menu_turn_shelf (library : Library) :
  filename library = "library.json" ->
  Forall as_added (books library) ->
  triple (fun t => shelf_store (world t)) (menu_turn library)
    (fun next t =>
       (forall library', next = Some library' ->
          filename library' = "library.json"
          /\ Forall as_added (books library'))
       /\ shelf_store (world t))
    (fun _ t => shelf_store (world t)).
Proof.
  intros Hf Hs. unfold menu_turn.
  do 7 shelf_print. shelf_input. shelf_print.
  repeat match goal with
  | |- context [String.eqb ?a ?b] => destruct (String.eqb_spec a b)
  end.
  - do 3 shelf_input.
    shelf_with ltac:(apply (call_keeps _ _
                       (fun l => filename l = "library.json"
                                 /\ Forall as_added (books l)));
                     intros w Hw; now apply add_book_shelf).
    apply triple_ret. intros t' Ht'. split; [|exact Ht'].
    intros l' Hl'. now injection Hl' as <-.
  - shelf_input.
    shelf_with ltac:(apply (call_keeps _ _
                       (fun l => filename l = "library.json"
                                 /\ Forall as_added (books l)));
                     intros w Hw; now apply remove_book_shelf).
    apply triple_ret. intros t' Ht'. split; [|exact Ht'].
    intros l' Hl'. now injection Hl' as <-.
  - shelf_input.
    shelf_with ltac:(apply (call_keeps _ _ (fun _ => True)); intros w Hw;
                     rewrite find_book_run; split; [exact I|];
                     now apply (shelf_store_files w)).
    apply triple_ret. intros t' Ht'. split; [|exact Ht'].
    intros l' Hl'. now injection Hl' as <-.
  - shelf_with ltac:(apply (call_keeps _ _ (fun _ => True)); intros w Hw;
                     destruct (display_books_files library w) as [lines ->];
                     split; [exact I|]; now apply (shelf_store_files w)).
    apply triple_ret. intros t' Ht'. split; [|exact Ht'].
    intros l' Hl'. now injection Hl' as <-.
  - do 2 shelf_input.
    shelf_with ltac:(apply (call_keeps _ _ (fun l => l = library)); intros w Hw;
                     match goal with
                     | |- context [update_status ?l ?i ?s w] =>
                         destruct (update_status_noop l i s w) as [msg ->]
                     end;
                     split; [reflexivity | now apply (shelf_store_files w)]).
    apply triple_ret. intros t' Ht'. split; [|exact Ht'].
    intros l' Hl'. injection Hl' as <-. now subst.
  - shelf_print.
    apply triple_ret. intros t' Ht'. split; [discriminate | exact Ht'].
  - shelf_print.
    apply triple_ret. intros t' Ht'. split; [|exact Ht'].
    intros l' Hl'. now injection Hl' as <-.
Qed.

Lemma main_loop_shelf (fuel : nat) :
  forall (library : Library) (t : Terminal),
    filename library = "library.json" ->
    Forall as_added (books library) ->
    shelf_store (world t) ->
    shelf_store (world (snd (main_loop fuel library t))).
Proof.
  induction fuel as [|fuel IH]; intros library t Hf Hs Ht; [exact Ht|].
  cbn [main_loop]. rewrite tbind_run.
  pose proof (menu_turn_shelf library Hf Hs t Ht) as H.
  destruct (menu_turn library t) as [[[library'|]|s] t1]; cbn [snd].
  - destruct H as [Hl Ht1]. destruct (Hl library' eq_refl) as [Hf' Hs'].
    now apply IH.
  - apply H.
  - exact H.
Qed.

(** X10: when [main] starts without a store file, then whatever is typed
    and however the run ends, the store file is still absent or holds
    Records that all have the status "в наличии" and a textual year: no
    choice of the menu records a book as "выдана". *)
Theorem main_never_checks_out (t : Terminal) :
  files (world t) !! "library.json" = None ->
  shelf_store (world (snd (main t))).
Proof.
  intros Hnone. unfold main. rewrite tbind_run. unfold call.
  unfold Library_init. rewrite bind_run.
  rewrite (load_books_recovers "library.json" (world t)) by now left.
  cbn [mret M_ret]. apply main_loop_shelf; [reflexivity | constructor |].
  now left.
Qed.

Lemma load_books_shape_error
    (path text : string) (data : json) (w : World) :
  files w !! path = Some text ->
  json_load text = Some data ->
  wrong_shape data = true ->
  load_books path w = (Raise TypeError, w).
Proof.
  intros H Hj Hs.
  unfold load_books, try_except, open_read, mbind, M_bind. rewrite H, Hj.
  destruct data as [| | | |l|d]; try discriminate; try reflexivity.
  - destruct l as [|x l]; [discriminate|].
    destruct x; try discriminate; reflexivity.
  - destruct d as [|kv d]; [discriminate | reflexivity].
Qed.

(** X13: when the store file holds well-formed JSON that is no list of
    objects, [main] stops with the [TypeError] of [load_books] before it
    prints, prompts or reads anything. *)
Theorem main_startup_crash (t : Terminal) (text : string) (data : json) :
  files (world t) !! "library.json" = Some text ->
  json_load text = Some data ->
  wrong_shape data = true ->
  main t = (Stopped (Failed TypeError), t).
Proof.
  intros Hf Hj Hs. unfold main. rewrite tbind_run. unfold call.
  unfold Library_init. rewrite bind_run.
  rewrite (load_books_shape_error _ _ _ _ Hf Hj Hs). now destruct t.
Qed.
End Menu_facts.

(** * The further properties at concrete inputs *)

(** X2 on a store whose only object has an empty identifier. *)
Lemma load_books_ids_nonempty_witness :
  let text :=
    Ref.dumps 0
      (JList [JDict [("id", JStr EmptyString); ("title", JStr "Идиот");
                     ("author", JStr "Фёдор Достоевский"); ("year", JInt 1869);
                     ("status", JStr "выдана")]]) in
  let w := Ref.world_with "library.json" text 0 in
  let l := [mkBook "00000000-0000-4000-8000-000000000000" "Идиот"
              "Фёдор Достоевский" (YInt 1869) "выдана"] in
  load_books "library.json" w = (Ok l, drawn w)
  /\ Forall (fun b => id b <> EmptyString) l.
Proof.
  cbv zeta.
  match goal with
  | |- ?H /\ _ => assert H as Hload by (vm_compute; reflexivity)
  end.
  split; [exact Hload|].
  exact (load_books_ids_nonempty _ _ _ _ Hload).
Defined.

(** X3 on an object with the three required fields only. *)
Lemma Book_kwargs_defaults_witness :
  let kw := [("title", JStr "Идиот"); ("author", JStr "Фёдор Достоевский");
             ("year", JInt 1869)] in
  forallb (fun k => existsb (String.eqb k) Book_params) (map fst kw) = true
  /\ kw_get "title" kw = Some (JStr "Идиот")
  /\ kw_get "author" kw = Some (JStr "Фёдор Достоевский")
  /\ kw_get "year" kw = Some (JInt 1869)
  /\ id_replaced kw
  /\ kw_get "status" kw = None
  /\ Book_kwargs (JDict kw) (Ref.world 0)
     = (Ok (mkBook (fresh_id (Ref.world 0)) "Идиот" "Фёдор Достоевский"
              (YInt 1869) "в наличии"),
        drawn (Ref.world 0)).
Proof.
  cbv zeta. repeat (split; [first [reflexivity | exact I]|]).
  apply (Book_kwargs_defaults _ "Идиот" "Фёдор Достоевский" (YInt 1869));
    first [reflexivity | exact I].
Defined.

(** X4 on a store whose object carries a key [note]. *)
Lemma load_books_bad_keys_witness :
  let kw := [("title", JStr "Идиот"); ("author", JStr "Фёдор Достоевский");
             ("year", JInt 1869); ("note", JStr "x")] in
  let text := Ref.dumps 0 (JList [JDict kw]) in
  let w := Ref.world_with "library.json" text 0 in
  files w !! "library.json" = Some text
  /\ json_load text = Some (JList [JDict kw])
  /\ ((exists k, In k (map fst kw) /\ ~ In k Book_params)
      \/ kw_get "title" kw = None \/ kw_get "author" kw = None
      \/ kw_get "year" kw = None)
  /\ load_books "library.json" w = (Raise TypeError, w).
Proof.
  cbv zeta.
  assert (exists k,
            In k (map fst [("title", JStr "Идиот");
                           ("author", JStr "Фёдор Достоевский");
                           ("year", JInt 1869); ("note", JStr "x")])
            /\ ~ In k Book_params) as Hk.
  { exists "note". split; [cbn; tauto|].
    intros H. cbn in H. repeat destruct H as [H|H]; try discriminate H.
    exact H. }
  split; [vm_compute; reflexivity|].
  split; [vm_compute; reflexivity|].
  split; [left; exact Hk|].
  eapply load_books_bad_keys.
  - vm_compute; reflexivity.
  - vm_compute; reflexivity.
  - left; exact Hk.
Defined.

(** X5 on the Catalog of two Records. *)
Lemma add_book_survives_restart_witness :
  let book := mkBook (fresh_id (Ref.world 7)) "Идиот" "Фёдор Достоевский"
                (YStr "1869") "в наличии" in
  Forall (fun b => id b <> EmptyString) (books Ref.shelf)
  /\ json_load (json_dump (store_doc (books Ref.shelf ++ [book])))
     = Some (store_doc (books Ref.shelf ++ [book]))
  /\ exists self' w',
      add_book Ref.shelf "Идиот" "Фёдор Достоевский" (YStr "1869") (Ref.world 7)
        = (Ok self', w')
      /\ books self' = books Ref.shelf ++ [book]
      /\ Library_init (filename Ref.shelf) w' = (Ok self', w').
Proof.
  cbv zeta.
  assert (Forall (fun b => id b <> EmptyString) (books Ref.shelf)) as Hid
    by (repeat constructor; discriminate).
  split; [exact Hid|].
  split; [apply loads_dumps_store_doc|].
  apply add_book_survives_restart; [exact Hid|].
  apply loads_dumps_store_doc.
Defined.

(** X6 on the Catalog of two Records, removing the second. *)
Lemma remove_book_survives_restart_witness :
  let w := Ref.world 0 in
  let self' := mkLibrary "library.json" [Ref.war] in
  let w' :=
    wrote "library.json" (store_text [Ref.war])
      (emit (Print ("Книга с ID " +:+ id Ref.anna +:+ " успешно удалена.")) w) in
  Forall (fun b => id b <> EmptyString) (books Ref.shelf)
  /\ Exists (fun b => id b = id Ref.anna) (books Ref.shelf)
  /\ remove_book Ref.shelf (id Ref.anna) w = (Ok self', w')
  /\ json_load (json_dump (store_doc (books self'))) = Some (store_doc (books self'))
  /\ Library_init (filename Ref.shelf) w' = (Ok self', w').
Proof.
  cbv zeta.
  assert (Forall (fun b => id b <> EmptyString) (books Ref.shelf)) as Hid
    by (repeat constructor; discriminate).
  assert (Exists (fun b => id b = id Ref.anna) (books Ref.shelf)) as Hex
    by (right; left; reflexivity).
  match goal with
  | |- _ /\ _ /\ ?H /\ _ => assert H as Hrm by (vm_compute; reflexivity)
  end.
  split; [exact Hid|]. split; [exact Hex|]. split; [exact Hrm|].
  split; [apply loads_dumps_store_doc|].
  eapply remove_book_survives_restart;
    [exact Hid | exact Hex | exact Hrm | apply loads_dumps_store_doc].
Defined.

(** X7 for a second file beside the store. *)
Lemma other_files_untouched_witness :
  let w := Ref.world_with "notes.txt" "x" 0 in
  "notes.txt" <> filename Ref.shelf
  /\ (files (snd (add_book Ref.shelf "Идиот" "Фёдор Достоевский" (YInt 1869) w))
        !! "notes.txt" = files w !! "notes.txt"
      /\ files (snd (remove_book Ref.shelf (id Ref.war) w)) !! "notes.txt"
         = files w !! "notes.txt"
      /\ files (snd (update_status Ref.shelf (id Ref.war) "выдана" w))
           !! "notes.txt" = files w !! "notes.txt"
      /\ files (snd (save_books Ref.shelf w)) !! "notes.txt"
         = files w !! "notes.txt").
Proof.
  cbv zeta. split; [discriminate|].
  apply (other_files_untouched Ref.shelf "notes.txt" "Идиот"
           "Фёдор Достоевский" (id Ref.war) "выдана" (YInt 1869)).
  discriminate.
Defined.

(** X8 on the Catalog of two Records. *)
Lemma add_then_remove_witness :
  Forall (fun b => id b <> fresh_id (Ref.world 0)) (books Ref.shelf)
  /\ exists self1 w1 w2,
      add_book Ref.shelf "Идиот" "Фёдор Достоевский" (YInt 1869) (Ref.world 0)
        = (Ok self1, w1)
      /\ remove_book self1 (fresh_id (Ref.world 0)) w1 = (Ok Ref.shelf, w2)
      /\ files w2 !! filename Ref.shelf = Some (store_text (books Ref.shelf)).
Proof.
  assert (Forall (fun b => id b <> fresh_id (Ref.world 0)) (books Ref.shelf))
    as Hnew by (repeat constructor; vm_compute; discriminate).
  split; [exact Hnew|]. now apply add_then_remove.
Defined.

(** X9 on the Catalog of two Records, removing the first. *)
Lemma remove_book_distinct_ids_witness :
  let w := Ref.world 0 in
  let self' := mkLibrary "library.json" [Ref.anna] in
  let w' :=
    wrote "library.json" (store_text [Ref.anna])
      (emit (Print ("Книга с ID " +:+ id Ref.war +:+ " успешно удалена.")) w) in
  List.NoDup (map id (books Ref.shelf))
  /\ remove_book Ref.shelf (id Ref.war) w = (Ok self', w')
  /\ Forall (fun b => id b <> id Ref.war) (books self')
  /\ (forall b, In b (books Ref.shelf) -> id b <> id Ref.war -> In b (books self'))
  /\ List.NoDup (map id (books self'))
  /\ remove_book self' (id Ref.war) w'
     = (Ok self',
        emit (Print ("Книга с ID " +:+ id Ref.war +:+ " не найдена.")) w').
Proof.
  cbv zeta.
  assert (List.NoDup (map id (books Ref.shelf))) as Hnd.
  { repeat constructor; cbn; intros H; repeat destruct H as [H|H];
      first [discriminate H | exact H]. }
  match goal with
  | |- _ /\ ?H /\ _ => assert H as Hrm by (vm_compute; reflexivity)
  end.
  split; [exact Hnd|]. split; [exact Hrm|].
  exact (remove_book_distinct_ids _ _ _ _ _ Hnd Hrm).
Defined.

(** X14 on the second Record of the Catalog. *)
Lemma found_by_own_fields_witness :
  In Ref.anna (books Ref.shelf)
  /\ (In Ref.anna (found_books Ref.shelf (title Ref.anna))
      /\ In Ref.anna (found_books Ref.shelf (author Ref.anna))
      /\ In Ref.anna (found_books Ref.shelf (str_year (year Ref.anna)))).
Proof.
  assert (In Ref.anna (books Ref.shelf)) as Hin by (right; left; reflexivity).
  split; [exact Hin | now apply found_by_own_fields].
Defined.

(** X15 on an empty file, as in [test_load_empty_file]. *)
Lemma Library_init_empty_witness :
  let w := Ref.world_with "test_library.json" EmptyString 0 in
  (files w !! "test_library.json" = None
   \/ exists text,
       files w !! "test_library.json" = Some text
       /\ (json_load text = None
           \/ json_load text = Some (JList [])
           \/ json_load text = Some (JDict [])
           \/ json_load text = Some (JStr EmptyString)))
  /\ Library_init "test_library.json" w
     = (Ok (mkLibrary "test_library.json" []), w).
Proof.
  cbv zeta.
  assert (files (Ref.world_with "test_library.json" EmptyString 0)
            !! "test_library.json" = None
          \/ exists text,
              files (Ref.world_with "test_library.json" EmptyString 0)
                !! "test_library.json" = Some text
              /\ (json_load text = None
                  \/ json_load text = Some (JList [])
                  \/ json_load text = Some (JDict [])
                  \/ json_load text = Some (JStr EmptyString))) as H.
  { right. exists EmptyString. split; [vm_compute; reflexivity|].
    left. reflexivity. }
  split; [exact H | now apply Library_init_empty].
Defined.

(** X10 on a session that adds a book and then asks for the status
    "выдана" with the identifier the book was given. *)
Lemma main_never_checks_out_witness :
  let t :=
    mkTerminal (Ref.world 0)
      ["1"; "Идиот"; "Фёдор Достоевский"; "1869";
       "5"; "00000000-0000-4000-8000-000000000000"; "выдана"; "6"] [] in
  files (world t) !! "library.json" = None
  /\ shelf_store (world (snd (main t))).
Proof.
  cbv zeta. split; [reflexivity|]. now apply main_never_checks_out.
Defined.

(** X12 on the choice "5". *)
Lemma menu_turn_read_only_witness :
  let t :=
    mkTerminal (Ref.world 0)
      ["5"; "1274d8e0-3b49-41eb-b3f6-1ee5fd38aae1"; "выдана"] [] in
  hd_error (stdin t) <> Some "1"
  /\ hd_error (stdin t) <> Some "2"
  /\ match menu_turn Ref.shelf t with
     | (r, t') =>
         no_write (world t) (world t')
         /\ (forall library', r = Done (Some library') -> library' = Ref.shelf)
     end.
Proof.
  cbv zeta. split; [discriminate|]. split; [discriminate|].
  apply menu_turn_read_only; discriminate.
Defined.

(** X13 on a store that holds [[1]]. *)
Lemma main_startup_crash_witness :
  let t := mkTerminal (Ref.world_with "library.json" "[1]" 0) ["6"] [] in
  files (world t) !! "library.json" = Some "[1]"
  /\ json_load "[1]" = Some (JList [JInt 1])
  /\ wrong_shape (JList [JInt 1]) = true
  /\ main t = (Stopped (Failed TypeError), t).
Proof.
  cbv zeta.
  split; [vm_compute; reflexivity|].
  split; [vm_compute; reflexivity|].
  split; [reflexivity|].
  eapply main_startup_crash.
  - vm_compute; reflexivity.
  - vm_compute; reflexivity.
  - reflexivity.
Defined.

(** A session of the menu: a book is added, found by the year as typed,
    asked to be marked "выдана", listed, a wrong choice, and the exit; the
    line after the exit stays unread. *)
Example session_of_main :
  let t :=
    mkTerminal (Ref.world 0)
      ["1"; "Война и мир"; "Лев Толстой"; "1869"; "3"; "1869";
       "5"; "00000000-0000-4000-8000-000000000000"; "выдана"; "4"; "9"; "6";
       "unread"] [] in
  match main t with
  | (r, t') =>
      r = Done tt /\ stdin t' = ["unread"]
      /\ List.filter
           (fun e => match e with
                     | Print s => negb (String.prefix "1. " s || String.prefix "2. " s
                                        || String.prefix "3. " s || String.prefix "4. " s
                                        || String.prefix "5. " s || String.prefix "6. " s
                                        || String.prefix (String "010"%char "==") s)
                     | Write _ _ => false
                     end)
           (events (world t'))
         = [Print "Книга 'Война и мир' успешно добавлена.";
            Print "Найденные книги:";
            Print "00000000-0000-4000-8000-000000000000 Война и мир - Лев Толстой, 1869 (в наличии)";
            Print "Книга с таким ID не найдена.";
            Print "Список книг в библиотеке:";
            Print "00000000-0000-4000-8000-000000000000 Война и мир - Лев Толстой, 1869 (в наличии)";
            Print "Неверный ввод. Повторите попытку.";
            Print "Выход из программы. До свидания!"]
  end.
Proof. vm_compute. repeat split. Qed.
